(** * EnergyMap.AI analytical pipeline: scoring, demand forecast, scenarios

    A shallow embedding of [pipeline/scoring.py], [pipeline/utils.py],
    [pipeline/demand.py] and [pipeline/scenario.py].

    Numbers.  The Python code computes on float64 arrays.  Here a finite
    float is an exact rational ([Q]); rounding error and overflow of the
    binary64 format are not modelled.  The non-finite floats (nan, +inf,
    -inf) appear only where the code itself handles them
    ([np.nan_to_num], [fillna], [float("nan")]).

    Dictionaries read with [.get(key, default)] are finite maps
    ([gmap string _]) read with [dict_get].  A pandas column that may hold
    nulls has cells of type [option _]. *)

From Stdlib Require Import QArith Qabs Qround Qminmax Qpower ZArith List Lia Lqa.
From stdpp Require Import gmap strings list sorting.

Local Open Scope Q_scope.

(** ** Shared helpers *)

(** [d.get(k, default)] *)
Definition dict_get {V : Type} (d : gmap string V) (k : string) (dflt : V) : V :=
  default dflt (d !! k).

(** Python's [a >= b], [a > b], [a <= b] on finite floats. *)
Definition Qge_bool (a b : Q) : bool := Qle_bool b a.
Definition Qgt_bool (a b : Q) : bool := negb (Qle_bool a b).

(** [np.clip(x, lo, hi)], which numpy computes as
    [minimum(maximum(x, lo), hi)]. *)
Definition clip (x lo hi : Q) : Q := Qmin (Qmax x lo) hi.

(** [np.rint]: round to the nearest integer, halves to the even one. *)
Definition rint (x : Q) : Z :=
  let f := Qfloor x in
  match Qcompare (x - inject_Z f) (1 # 2) with
  | Lt => f
  | Gt => (f + 1)%Z
  | Eq => if Z.even f then f else (f + 1)%Z
  end.

(** [np.round(x, 2)]: scale by 100, round to the nearest integer, scale
    back. *)
Definition round2 (x : Q) : Q := inject_Z (rint (x * 100)) / 100.

(** [column.sum()] of a null-free column. *)
Definition Qsum (l : list Q) : Q := fold_left Qplus l 0.

(** A float64 array element as the code can receive it. *)
Inductive float64 : Type :=
| Finite (q : Q)
| NaN
| PosInf
| NegInf.

(** [np.nan_to_num(arr, nan=0.0, posinf=0.0, neginf=0.0)], elementwise. *)
Definition nan_to_num (x : float64) : Q :=
  match x with
  | Finite q => q
  | NaN | PosInf | NegInf => 0
  end.

(** ** pipeline/scoring.py and pipeline/utils.py *)
Module Scoring.

(** [clamp(value, minimum, maximum) = max(minimum, min(value, maximum))] *)
Definition clamp (value minimum maximum : Q) : Q :=
  Qmax minimum (Qmin value maximum).

(** [np.isclose(a, b)] with numpy's defaults [rtol=1e-05], [atol=1e-08]:
    [|a - b| <= atol + rtol * |b|]. *)
Definition rtol : Q := 1 # 100000.
Definition atol : Q := 1 # 100000000.
Definition isclose (a b : Q) : bool :=
  Qle_bool (Qabs (a - b)) (atol + rtol * Qabs b).

(** [arr.max()] and [arr.min()] of a non-empty array [a :: rest]. *)
Definition arr_max (a : Q) (rest : list Q) : Q := fold_left Qmax rest a.
Definition arr_min (a : Q) (rest : list Q) : Q := fold_left Qmin rest a.

Definition normalize_to_ten (values : list float64) (invert : bool) : list Q :=
  let arr := map nan_to_num values in
  match arr with
  | [] => []
  | a :: rest =>
      let vmax := arr_max a rest in
      let vmin := arr_min a rest in
      if isclose vmax vmin then map (fun _ => 5) arr
      else
        let normalized := map (fun x => (x - vmin) / (vmax - vmin)) arr in
        let normalized :=
          if invert then map (fun n => 1 - n) normalized else normalized in
        map (fun n => clip (n * 10) 0 10) normalized
  end.

(** The part of [Config] that [compute_scores] reads. *)
Record Config : Type := mkConfig {
  weights : gmap string Q;
  thresholds : gmap string Q;
  recommendation_rules : gmap string (gmap string Q);
  population_scale : Q
}.

(** [utils.estimate_population] on the resolved, null-free population
    column: values above 1 anywhere mean the column is a percentage. *)
Definition estimate_population (values : list Q) (scale : Q) : list Q :=
  let values :=
    match values with
    | [] => values
    | a :: rest =>
        if Qgt_bool (arr_max a rest) 1
        then map (fun v => clip v 0 100 / 100) values
        else values
    end in
  map (fun v => clip v 0 1 * scale) values.

Section WithConfig.

Variable config : Config.

(** The local function [categorize] of [compute_scores]. *)
Definition categorize (value : Q) : string :=
  let high := dict_get (thresholds config) "high_priority" 7.0 in
  let medium := dict_get (thresholds config) "medium_priority" 5.0 in
  if Qge_bool value high then "High"
  else if Qge_bool value medium then "Medium"
  else "Low".

Definition recommend_solution (distance_km population_index economic_score : Q)
  : string :=
  let rules := recommendation_rules config in
  let road_density_score := clamp (economic_score / 10.0) 0.0 1.0 in
  let grid_rule := dict_get rules "grid_extension" ∅ in
  if Qle_bool distance_km (dict_get grid_rule "max_distance_km" 5)
     && Qge_bool population_index (dict_get grid_rule "min_population_index" 0.6)
  then "grid_extension"
  else
    let hybrid_rule := dict_get rules "mini_grid_hybrid" ∅ in
    if Qle_bool distance_km (dict_get hybrid_rule "max_distance_km" 15)
       && Qge_bool population_index (dict_get hybrid_rule "min_population_index" 0.3)
       && Qge_bool road_density_score (dict_get hybrid_rule "min_road_density" 0.5)
    then "mini_grid_hybrid"
    else
      let standalone_rule := dict_get rules "standalone_solar" ∅ in
      if Qge_bool distance_km (dict_get standalone_rule "min_distance_km" 25)
         && Qle_bool population_index
              (dict_get standalone_rule "max_population_index" 0.2)
      then "standalone_solar"
      else "mini_grid_solar".

(** The local function [estimate_cost] of [compute_scores]. *)
Definition estimate_cost (solution : string) (population distance : Q) : Q :=
  let households := population * 0.3 in
  if String.eqb solution "grid_extension" then
    distance * 1000 + households * 200
  else if String.prefix "mini_grid" solution then
    let capacity_kw := households * 0.5 in
    capacity_kw * 1500 + households * 300
  else households * 500.

(** One element of
    [np.where(estimated_population > 0,
              estimated_cost / np.maximum(estimated_population, 1), 0.0)]. *)
Definition cost_per_person (population cost : Q) : Q :=
  if Qgt_bool population 0 then cost / Qmax population 1 else 0.0.

(** The columns of the input frame after [resolve_field]; the social-need
    column is taken after the [np.where(social_raw > 0, social_raw,
    np.exp(...))] adjustment, whose exponential is not rational. *)
Record Resolved : Type := mkResolved {
  population_index : Q;
  access_gap_raw : Q;
  economic_raw : Q;
  social_adjusted : Q;
  grid_distance : Q
}.

(** The fields [compute_scores] appends to a cluster record. *)
Record Enriched : Type := mkEnriched {
  population_score : Q;
  access_gap_score : Q;
  economic_score : Q;
  social_need_score : Q;
  grid_proximity_score : Q;
  priority_score : Q;
  priority_category : string;
  recommended_solution : string;
  estimated_population : Z;
  estimated_cost_usd : Q;
  cost_per_person_usd : Q
}.

(** The five sub-scores and the population estimate of one cluster, before
    the composite is formed. *)
Record Scored : Type := mkScored {
  s_population : Q;
  s_access_gap : Q;
  s_economic : Q;
  s_social_need : Q;
  s_grid_proximity : Q;
  s_estimated_population : Q
}.

Definition composite_of (s : Scored) : Q :=
  let w := weights config in
  dict_get w "population" 0.0 * s_population s
  + dict_get w "access_gap" 0.0 * s_access_gap s
  + dict_get w "economic_activity" 0.0 * s_economic s
  + dict_get w "social_need" 0.0 * s_social_need s
  + dict_get w "grid_proximity" 0.0 * s_grid_proximity s.

(** The per-cluster part of [compute_scores], from the composite on. *)
Definition enrich (r : Resolved) (s : Scored) : Enriched :=
  let composite := composite_of s in
  let recommendation :=
    recommend_solution (grid_distance r) (population_index r) (s_economic s) in
  let population := s_estimated_population s in
  let estimated_cost := estimate_cost recommendation population (grid_distance r) in
  {| population_score := round2 (s_population s);
     access_gap_score := round2 (s_access_gap s);
     economic_score := round2 (s_economic s);
     social_need_score := round2 (s_social_need s);
     grid_proximity_score := round2 (s_grid_proximity s);
     priority_score := round2 composite;
     priority_category := categorize composite;
     recommended_solution := recommendation;
     estimated_population := rint population;
     estimated_cost_usd := round2 estimated_cost;
     cost_per_person_usd := round2 (cost_per_person population estimated_cost) |}.

(** Six equally long arrays zipped into one record per cluster. *)
Fixpoint zip_scored (p a e s g pop : list Q) : list Scored :=
  match p, a, e, s, g, pop with
  | p0 :: p, a0 :: a, e0 :: e, s0 :: s, g0 :: g, pop0 :: pop =>
      mkScored p0 a0 e0 s0 g0 pop0 :: zip_scored p a e s g pop
  | _, _, _, _, _, _ => []
  end.

Definition column (f : Resolved -> Q) (gdf : list Resolved) : list float64 :=
  map (fun r => Finite (f r)) gdf.

Definition compute_scores (gdf : list Resolved) : list Enriched :=
  let population_score := normalize_to_ten (column population_index gdf) false in
  let access_gap_score := normalize_to_ten (column access_gap_raw gdf) true in
  let economic_score := normalize_to_ten (column economic_raw gdf) false in
  let social_need_score := normalize_to_ten (column social_adjusted gdf) false in
  let grid_proximity_score := normalize_to_ten (column grid_distance gdf) true in
  let estimated_population :=
    estimate_population (map population_index gdf) (population_scale config) in
  zip_with enrich gdf
    (zip_scored population_score access_gap_score economic_score
       social_need_score grid_proximity_score estimated_population).

End WithConfig.

(** The input frame as [resolve_field] and [utils.estimate_population]
    see it: the number of its records and its columns by name, a cell
    being what [pd.to_numeric(..., errors="coerce")] makes of it ([None]
    is NaN, a null or an unparsable entry). *)
Record DataFrame : Type := mkDataFrame {
  nrows : nat;
  columns : gmap string (list (option Q))
}.

(** [resolve_field(data, candidates, default)]: the first candidate that
    is a column of [data], its nulls filled with [default]; without one,
    [np.full(len(data), default)]. *)
Fixpoint resolve_field (data : DataFrame) (candidates : list string) (dflt : Q)
  : list Q :=
  match candidates with
  | [] => replicate (nrows data) dflt
  | field :: candidates' =>
      match columns data !! field with
      | Some col => map (fun c => default dflt c) col
      | None => resolve_field data candidates' dflt
      end
  end.

(** The [for ... else] loop of [utils.estimate_population]: the first
    candidate that is a column, nulls filled with 0.0; without one, a
    column of 0.0. *)
Fixpoint population_values (frame : DataFrame) (population_candidates : list string)
  : list Q :=
  match population_candidates with
  | [] => replicate (nrows frame) 0.0
  | field :: candidates' =>
      match columns frame !! field with
      | Some col => map (fun c => default 0.0 c) col
      | None => population_values frame candidates'
      end
  end.

(** [utils.estimate_population(frame, population_candidates, scale)] *)
Definition utils_estimate_population (frame : DataFrame)
    (population_candidates : list string) (scale : Q) : list Q :=
  estimate_population (population_values frame population_candidates) scale.

End Scoring.

(** ** Exceptions

    A computation that can raise returns an [outcome]. *)
Inductive exn : Type :=
| ZeroDivisionError
| AttributeError
| BadReference.

Inductive outcome (A : Type) : Type :=
| Ok (a : A)
| Raise (e : exn).
Arguments Ok {A} a.
Arguments Raise {A} e.

(** Python's built-in [max(a, b)] on two finite floats: the first argument
    is kept unless the second is strictly greater. *)
Definition py_max (a b : Q) : Q := if Qgt_bool b a then b else a.

(** ** pipeline/demand.py *)
Module Demand.

Record DemandConfig : Type := mkDemandConfig {
  population_growth : gmap string Q;
  baseline_consumption : Q;
  load_factor : Q;
  electrification_target_rate : Q;
  consumption_growth_rate : Q;
  population_scale : Q
}.

(** One record of the Scoring Engine's output as this stage reads it.  The
    columns [norm_pop], [pop_index], [energy_need_score] and
    [building_density] come from the upstream dataset; a cell is what
    [pd.to_numeric(..., errors="coerce")] makes of it, [None] being NaN
    (null or unparsable). *)
Record Cluster : Type := mkCluster {
  priority_score : Q;
  recommended_solution : string;
  population_score : Q;
  norm_pop : option Q;
  pop_index : option Q;
  energy_need_score : option Q;
  building_density : option Q
}.

(** The frame: its records and which of the upstream columns it has. *)
Record GeoDataFrame : Type := mkFrame {
  has_norm_pop : bool;
  has_pop_index : bool;
  has_energy_need_score : bool;
  has_building_density : bool;
  rows : list Cluster
}.

(** A record after [_baseline_demand]. *)
Record Baseline : Type := mkBaseline {
  cluster : Cluster;
  estimated_population : Q;
  electrification_status : string;
  demand_per_household_kwh : Q;
  baseline_demand_mwh_year : Q;
  baseline_peak_demand_kw : Q
}.

(** A record after [_forecast_demand]: the three columns keyed by the
    target year. *)
Record Forecast : Type := mkForecast {
  base : Baseline;
  population_target : Q;
  demand_target_mwh_year : Q;
  peak_demand_target_kw : Q
}.

(** [.fillna(v)] on one cell. *)
Definition fillna (v : Q) (c : option Q) : Q := default v c.

Definition _status_from_need (score : Q) : string :=
  if Qge_bool score 60 then "none"
  else if Qge_bool score 40 then "partial"
  else "electrified".

(** The local function [household_demand] of [_baseline_demand]. *)
Definition household_demand (status : string) (need : Q) : Q :=
  if String.eqb status "electrified" then 2000 - need * 5
  else if String.eqb status "partial" then 800
  else 450.

Definition base_year : Z := 2024.

Section WithConfig.

Variable demand_config : DemandConfig.

(** [_estimate_population]: the first of [norm_pop], [pop_index] that the
    frame has, else [population_score / 10]. *)
Definition _estimate_population (df : GeoDataFrame) : list Q :=
  let pop_index :=
    if has_norm_pop df then map norm_pop (rows df)
    else if has_pop_index df then map pop_index (rows df)
    else map (fun c => Some (population_score c / 10)) (rows df) in
  map (fun c => clip (fillna 0.0 c) 0 1 * population_scale demand_config)
    pop_index.

(** [pd.to_numeric(gdf.get("energy_need_score", 0), errors="coerce")
       .fillna(0)].
    Without the column, [gdf.get] gives the integer 0, [pd.to_numeric]
    returns it as it is, and an integer has no [fillna]. *)
Definition need_score (gdf : GeoDataFrame) : outcome (list Q) :=
  if has_energy_need_score gdf
  then Ok (map (fun c => fillna 0 (energy_need_score c)) (rows gdf))
  else Raise AttributeError.

Definition peak_kw (demand_mwh_year : Q) : Q :=
  (demand_mwh_year * 1000)
  / (365 * 24 * py_max (load_factor demand_config) 0.01).

Definition baseline_row (c : Cluster) (population need : Q) : Baseline :=
  let status := _status_from_need need in
  let households := population * 0.3 in
  let per_household := household_demand status need in
  let demand := (households * per_household) / 1000 in
  {| cluster := c;
     estimated_population := population;
     electrification_status := status;
     demand_per_household_kwh := per_household;
     baseline_demand_mwh_year := demand;
     baseline_peak_demand_kw := peak_kw demand |}.

Fixpoint zip_baseline (cs : list Cluster) (pops needs : list Q) : list Baseline :=
  match cs, pops, needs with
  | c :: cs, p :: pops, n :: needs =>
      baseline_row c p n :: zip_baseline cs pops needs
  | _, _, _ => []
  end.

Definition _baseline_demand (gdf : GeoDataFrame) : outcome (list Baseline) :=
  let estimated_population := _estimate_population gdf in
  match need_score gdf with
  | Raise e => Raise e
  | Ok need => Ok (zip_baseline (rows gdf) estimated_population need)
  end.

(** [density >= threshold] on a cell: false on NaN. *)
Definition cell_ge (density : option Q) (threshold : Q) : bool :=
  match density with
  | Some d => Qge_bool d threshold
  | None => false
  end.

Definition _population_growth (density : option Q) : Q :=
  let growth := population_growth demand_config in
  let urban_threshold := dict_get growth "urban_density_threshold" 100 in
  let peri_threshold := dict_get growth "peri_urban_density_threshold" 50 in
  if cell_ge density urban_threshold then dict_get growth "urban_rate" 0.035
  else if cell_ge density peri_threshold then dict_get growth "peri_urban_rate" 0.025
  else dict_get growth "rural_rate" 0.015.

(** [years = max(target_year - base_year, 0)] *)
Definition years_to (target_year : Z) : Z := Z.max (target_year - base_year) 0.

(** [gdf["estimated_population"] * ((1 + growth_rates) ** years)], one
    element. *)
Definition future_population (population rate : Q) (target_year : Z) : Q :=
  population * (1 + rate) ^ years_to target_year.

(** [(gdf["electrification_status"] != "none").astype(float)], one
    element. *)
Definition electrified_flag (b : Baseline) : Q :=
  if String.eqb (electrification_status b) "none" then 0 else 1.

(** [electrified.mean()].  On the empty frame pandas gives NaN, which no
    record is there to observe; the model gives 0. *)
Definition mean (l : list Q) : Q :=
  match l with
  | [] => 0
  | _ => Qsum l / inject_Z (Z.of_nat (length l))
  end.

(** [_forecast_demand] on the records [_baseline_demand] returned;
    [has_density] tells whether the frame has the [building_density]
    column, in place of which the code takes a column of zeros. *)
Definition _forecast_demand (has_density : bool) (gdf : list Baseline)
    (target_year : Z) : list Forecast :=
  let years := years_to target_year in
  let target_rate := electrification_target_rate demand_config in
  let adjustment := clip (target_rate - mean (map electrified_flag gdf)) 0.0 1.0 in
  let consumption_multiplier :=
    (1 + consumption_growth_rate demand_config) ^ years in
  let base_demand_per_person := baseline_consumption demand_config in
  map (fun b =>
         let density :=
           if has_density then building_density (cluster b) else Some 0 in
         let growth_rate := _population_growth density in
         let future := future_population (estimated_population b) growth_rate target_year in
         let future_electrified := clip (electrified_flag b + adjustment) 0.0 1.0 in
         let demand :=
           (future * future_electrified * base_demand_per_person
            * consumption_multiplier) / 1000 in
         {| base := b;
            population_target := future;
            demand_target_mwh_year := demand;
            peak_demand_target_kw := peak_kw demand |})
      gdf.

(** [run] up to the files it writes: baseline, then the 2030 forecast. *)
Definition run (gdf : GeoDataFrame) : outcome (list Forecast) :=
  match _baseline_demand gdf with
  | Raise e => Raise e
  | Ok b => Ok (_forecast_demand (has_building_density gdf) b 2030)
  end.




End WithConfig.

End Demand.

(** ** pipeline/scenario.py *)
Module Scenario.

(** One record of the Demand Forecast Engine's output as this stage reads
    and writes it.  Text columns may hold nulls; [solar_capacity_mw] and
    [scenario_tag] are the columns interventions add. *)
Record Cluster : Type := mkCluster {
  priority_score : Q;
  dist_to_power_km : Q;
  recommended_solution : option string;
  electrification_status : option string;
  estimated_population : Q;
  baseline_demand_mwh_year : Q;
  baseline_peak_demand_kw : Q;
  estimated_cost_usd : option Q;
  solar_capacity_mw : option Q;
  scenario_tag : option string
}.

(** The frame: its records, in row order, and whether it has the two
    columns the code looks up with [.get]. *)
Record GeoDataFrame : Type := mkFrame {
  has_estimated_cost_usd : bool;
  has_solar_capacity_mw : bool;
  rows : list Cluster
}.

(** An intervention dictionary of the configuration: [None] is an absent
    key. *)
Record Intervention : Type := mkIntervention {
  itype : option string;
  count : option Z;
  target : option string;
  rate : option Q;
  capacity_mw : option Q
}.

Record ScenarioDefinition : Type := mkScenario {
  name : string;
  description : string;
  interventions : list Intervention
}.

(** The dictionary [calculate_impacts] returns, with the two texts [run]
    adds to it (the time stamp is left out). *)
Record Impacts : Type := mkImpacts {
  people_electrified : Q;
  settlements_connected : Q;
  demand_increase_mwh : Q;
  cost_usd : float64;
  electrification_rate : Q;
  scenario_name : string;
  scenario_description : string
}.

(** *** Column updates on one record *)

Definition set_status (v : string) (c : Cluster) : Cluster :=
  mkCluster (priority_score c) (dist_to_power_km c) (recommended_solution c)
    (Some v) (estimated_population c) (baseline_demand_mwh_year c)
    (baseline_peak_demand_kw c) (estimated_cost_usd c) (solar_capacity_mw c)
    (scenario_tag c).

Definition set_solution (v : string) (c : Cluster) : Cluster :=
  mkCluster (priority_score c) (dist_to_power_km c) (Some v)
    (electrification_status c) (estimated_population c)
    (baseline_demand_mwh_year c) (baseline_peak_demand_kw c)
    (estimated_cost_usd c) (solar_capacity_mw c) (scenario_tag c).

Definition set_tag (v : string) (c : Cluster) : Cluster :=
  mkCluster (priority_score c) (dist_to_power_km c) (recommended_solution c)
    (electrification_status c) (estimated_population c)
    (baseline_demand_mwh_year c) (baseline_peak_demand_kw c)
    (estimated_cost_usd c) (solar_capacity_mw c) (Some v).

Definition scale_population (k : Q) (c : Cluster) : Cluster :=
  mkCluster (priority_score c) (dist_to_power_km c) (recommended_solution c)
    (electrification_status c) (estimated_population c * k)
    (baseline_demand_mwh_year c) (baseline_peak_demand_kw c)
    (estimated_cost_usd c) (solar_capacity_mw c) (scenario_tag c).

Definition scale_demand (k : Q) (c : Cluster) : Cluster :=
  mkCluster (priority_score c) (dist_to_power_km c) (recommended_solution c)
    (electrification_status c) (estimated_population c)
    (baseline_demand_mwh_year c * k) (baseline_peak_demand_kw c)
    (estimated_cost_usd c) (solar_capacity_mw c) (scenario_tag c).

Definition scale_peak (k : Q) (c : Cluster) : Cluster :=
  mkCluster (priority_score c) (dist_to_power_km c) (recommended_solution c)
    (electrification_status c) (estimated_population c)
    (baseline_demand_mwh_year c) (baseline_peak_demand_kw c * k)
    (estimated_cost_usd c) (solar_capacity_mw c) (scenario_tag c).

Definition set_solar (v : option Q) (c : Cluster) : Cluster :=
  mkCluster (priority_score c) (dist_to_power_km c) (recommended_solution c)
    (electrification_status c) (estimated_population c)
    (baseline_demand_mwh_year c) (baseline_peak_demand_kw c)
    (estimated_cost_usd c) v (scenario_tag c).

Definition with_rows (f : GeoDataFrame) (rs : list Cluster) : GeoDataFrame :=
  mkFrame (has_estimated_cost_usd f) (has_solar_capacity_mw f) rs.

(** *** Row selection

    A selection is the list of the chosen row labels; the frame read from
    a file has the labels 0, 1, 2, ... in row order. *)

(** Stable insertion into a list sorted by decreasing key: the new element
    comes from an earlier row than those already there, so it goes before
    the ones with an equal key. *)
Fixpoint insert_desc (x : nat * Q) (l : list (nat * Q)) : list (nat * Q) :=
  match l with
  | [] => [x]
  | y :: l' =>
      if Qle_bool (snd y) (snd x) then x :: l else y :: insert_desc x l'
  end.

Fixpoint insert_asc (x : nat * Q) (l : list (nat * Q)) : list (nat * Q) :=
  match l with
  | [] => [x]
  | y :: l' =>
      if Qle_bool (snd x) (snd y) then x :: l else y :: insert_asc x l'
  end.

(** [frame.nlargest(n, column).index] with pandas' default [keep="first"]:
    the labels of the [n] rows with the largest keys, ties going to the
    earlier rows; nothing when [n <= 0]. *)
Definition nlargest (n : Z) (keyed : list (nat * Q)) : list nat :=
  map fst (take (Z.to_nat n) (foldr insert_desc [] keyed)).

(** [frame.nsmallest(n, column).index] *)
Definition nsmallest (n : Z) (keyed : list (nat * Q)) : list nat :=
  map fst (take (Z.to_nat n) (foldr insert_asc [] keyed)).

(** [frame.head(n).index]: the first [n] rows, or all but the last [-n]
    rows when [n] is negative. *)
Definition head (n : Z) (len : nat) : list nat :=
  if (0 <=? n)%Z then seq 0 (Nat.min (Z.to_nat n) len)
  else seq 0 (len - Z.to_nat (- n)).

(** The rows with their labels and the key read from [column]. *)
Definition keyed (column : Cluster -> Q) (rs : list Cluster) : list (nat * Q) :=
  imap (fun i c => (i, column c)) rs.

(** [pat in s] for a literal pattern, which is what
    [.str.contains("mini")] tests on a text cell. *)
Fixpoint contains (pat s : string) : bool :=
  String.prefix pat s
  || match s with
     | EmptyString => false
     | String _ s' => contains pat s'
     end.

(** The mask of [mini_grid_deployment]:
    [recommended_solution.str.contains("mini", na=False)
     | (electrification_status == "none")]. *)
Definition suitable (c : Cluster) : bool :=
  match recommended_solution c with
  | Some s => contains "mini" s
  | None => false
  end
  || bool_decide (electrification_status c = Some "none"%string).

(** [result.loc[idx, column] = ...]: the update [f] on the rows whose
    label is in [idx]. *)
Definition loc_update (idx : list nat) (f : Cluster -> Cluster)
    (rs : list Cluster) : list Cluster :=
  imap (fun i c => if bool_decide (i ∈ idx) then f c else c) rs.

(** *** The object store

    A [GeoDataFrame] variable holds a reference; [data.copy()] allocates a
    new frame, and the assignments into [result] update the frame that
    [result] refers to, in place. *)
Definition loc : Type := positive.

Definition M (A : Type) : Type :=
  gmap loc GeoDataFrame -> outcome A * gmap loc GeoDataFrame.

#[global] Instance M_ret : MRet M := fun A a h => (Ok a, h).

#[global] Instance M_bind : MBind M := fun A B k m h =>
  match m h with
  | (Ok a, h') => k a h'
  | (Raise e, h') => (Raise e, h')
  end.

Definition raise {A : Type} (e : exn) : M A := fun h => (Raise e, h).

(** Read the frame a reference points to. *)
Definition deref (l : loc) : M GeoDataFrame := fun h =>
  match h !! l with
  | Some f => (Ok f, h)
  | None => (Raise BadReference, h)
  end.

(** [data.copy()]: a new frame with the same contents. *)
Definition copy (l : loc) : M loc := fun h =>
  match h !! l with
  | Some f => let l' := fresh (dom h) in (Ok l', <[l' := f]> h)
  | None => (Raise BadReference, h)
  end.

(** An in-place update of the frame a reference points to. *)
Definition update (l : loc) (g : GeoDataFrame -> GeoDataFrame) : M unit := fun h =>
  match h !! l with
  | Some f => (Ok tt, <[l := g f]> h)
  | None => (Raise BadReference, h)
  end.

(** [result.loc[idx, column] = ...] on the frame [result] refers to. *)
Definition assign_loc (result : loc) (idx : list nat) (f : Cluster -> Cluster)
  : M unit :=
  update result (fun fr => with_rows fr (loc_update idx f (rows fr))).

(** [result[column] = ...]: every row. *)
Definition assign_all (result : loc) (f : Cluster -> Cluster) : M unit :=
  update result (fun fr => with_rows fr (map f (rows fr))).

Definition is_type (it : Intervention) (tag : string) : bool :=
  bool_decide (itype it = Some tag).

Definition apply_intervention (data : loc) (intervention : Intervention) : M loc :=
  result ← copy data;
  (if is_type intervention "grid_extension" then
     let count := default 10%Z (count intervention) in
     let target := default "top_priority"%string (target intervention) in
     fr ← deref result;
     let idx :=
       if String.eqb target "top_priority" then
         nlargest count (keyed priority_score (rows fr))
       else if String.eqb target "nearest_grid" then
         nsmallest count (keyed dist_to_power_km (rows fr))
       else head count (length (rows fr)) in
     assign_loc result idx (set_status "electrified");;
     assign_loc result idx (set_solution "grid_extension");;
     assign_loc result idx (scale_demand 1.5);;
     assign_loc result idx (set_tag "grid_extension")
   else if is_type intervention "mini_grid_deployment" then
     let count := default 20%Z (count intervention) in
     fr ← deref result;
     let candidates :=
       List.filter (fun ic => suitable (snd ic))
         (imap (fun i c => (i, c)) (rows fr)) in
     let idx :=
       nlargest count (map (fun ic => (fst ic, priority_score (snd ic))) candidates) in
     assign_loc result idx (set_status "partial");;
     assign_loc result idx (set_solution "mini_grid");;
     assign_loc result idx (scale_demand 1.3);;
     assign_loc result idx (set_tag "mini_grid")
   else if is_type intervention "population_growth" then
     let rate := default 0.1 (rate intervention) in
     assign_all result (scale_population (1 + rate));;
     assign_all result (scale_demand (1 + rate));;
     assign_all result (scale_peak (1 + rate));;
     assign_all result (set_tag "population_growth")
   else if is_type intervention "demand_increase" then
     let rate := default 0.2 (rate intervention) in
     assign_all result (scale_demand (1 + rate));;
     assign_all result (scale_peak (1 + rate));;
     assign_all result (set_tag "demand_increase")
   else if is_type intervention "solar_capacity_addition" then
     let capacity := default 50 (capacity_mw intervention) in
     fr ← deref result;
     let per_cluster :=
       capacity / inject_Z (Z.max (Z.of_nat (length (rows fr))) 1) in
     update result (fun fr =>
       mkFrame (has_estimated_cost_usd fr) true
         (map (fun c =>
                 set_solar
                   (if has_solar_capacity_mw fr
                    then (fun v => v + per_cluster) <$> solar_capacity_mw c
                    else Some (0 + per_cluster)) c)
              (rows fr)));;
     assign_all result (set_tag "solar_capacity")
   else mret tt);;
  mret result.

(** *** Impact accounting *)

Definition is_none (c : Cluster) : bool :=
  bool_decide (electrification_status c = Some "none"%string).

(** [column.sum()], which skips nulls. *)
Definition sum_skipna (l : list (option Q)) : Q :=
  Qsum (omap id l).

Definition unelectrified (f : GeoDataFrame) : list Cluster :=
  List.filter is_none (rows f).

(** The body of [calculate_impacts] on the two frames.  The dictionary is
    built entry by entry; the last entry divides by [len(scenario)]. *)
Definition impacts_of (baseline scenario : GeoDataFrame) : outcome Impacts :=
  let baseline_unelectrified := unelectrified baseline in
  let scenario_unelectrified := unelectrified scenario in
  let people_electrified :=
    Qsum (map estimated_population baseline_unelectrified)
    - Qsum (map estimated_population scenario_unelectrified) in
  let settlements_connected :=
    (Z.of_nat (length baseline_unelectrified)
     - Z.of_nat (length scenario_unelectrified))%Z in
  let demand_baseline := Qsum (map baseline_demand_mwh_year (rows baseline)) in
  let demand_scenario := Qsum (map baseline_demand_mwh_year (rows scenario)) in
  let cost_total :=
    if has_estimated_cost_usd scenario
    then Finite (sum_skipna (map estimated_cost_usd (rows scenario)))
    else NaN in
  let electrified :=
    length (List.filter (fun c => negb (is_none c)) (rows scenario)) in
  if (length (rows scenario) =? 0)%nat then Raise ZeroDivisionError
  else
    Ok {| people_electrified := py_max people_electrified 0;
          settlements_connected := inject_Z (Z.max settlements_connected 0);
          demand_increase_mwh := demand_scenario - demand_baseline;
          cost_usd := cost_total;
          electrification_rate :=
            inject_Z (Z.of_nat electrified)
            / inject_Z (Z.of_nat (length (rows scenario)));
          scenario_name := "";
          scenario_description := "" |}.

Definition calculate_impacts (baseline scenario : loc) : M Impacts :=
  b ← deref baseline;
  s ← deref scenario;
  match impacts_of b s with
  | Ok i => mret i
  | Raise e => raise e
  end.

Definition describe (d : ScenarioDefinition) (i : Impacts) : Impacts :=
  mkImpacts (people_electrified i) (settlements_connected i)
    (demand_increase_mwh i) (cost_usd i) (electrification_rate i)
    (name d) (description d).

(** The inner loop of [run]: each intervention is applied to the result of
    the one before. *)
Fixpoint apply_all (scenario_data : loc) (its : list Intervention) : M loc :=
  match its with
  | [] => mret scenario_data
  | it :: its' =>
      scenario_data ← apply_intervention scenario_data it;
      apply_all scenario_data its'
  end.

(** The outer loop of [run] over the scenario definitions, [baseline]
    being the frame [load_baseline] returned.  The files written on the
    way are left out. *)
Fixpoint run_scenarios (baseline : loc) (defs : list ScenarioDefinition)
    (scenarios : list Impacts) : M (list Impacts) :=
  match defs with
  | [] => mret scenarios
  | definition :: defs' =>
      scenario_data ← copy baseline;
      scenario_data ← apply_all scenario_data (interventions definition);
      impacts ← calculate_impacts baseline scenario_data;
      run_scenarios baseline defs' (scenarios ++ [describe definition impacts])
  end.

Definition run (baseline : loc) (defs : list ScenarioDefinition) : M (list Impacts) :=
  run_scenarios baseline defs [].

(** *** Footprints

    [grows m]: whatever [m] does, every frame of the store it started
    from is still there, unchanged, when it stops (be it by an
    exception).  [writes_only l m]: [m] may update the frame at [l], and
    leaves every frame of an earlier store that had no [l] as it was. *)
Definition grows {A : Type} (m : M A) : Prop :=
  forall h r h', m h = (r, h') -> h ⊆ h'.

Definition writes_only {A : Type} (l : loc) (m : M A) : Prop :=
  forall h0 h r h', h0 !! l = None -> h0 ⊆ h -> m h = (r, h') -> h0 ⊆ h'.

(** *** The order of a selection

    [ranks_before x y], on pairs of a row label and a key: [x] has the
    larger key, or the same key and the earlier row. *)
Definition ranks_before (x y : nat * Q) : Prop :=
  snd y < snd x \/ (snd y == snd x /\ (fst x < fst y)%nat).

(** The labels of a keyed list increase along the list. *)
Definition labels_increase (kl : list (nat * Q)) : Prop :=
  StronglySorted (fun a b => (fst a < fst b)%nat) kl.

(** *** What interventions keep

    [row_kept c0 c]: the record [c] has the priority score, the grid
    distance and the estimated cost of [c0], and is unelectrified only if
    [c0] was.  [same_shape f0 f]: [f] has the records of [f0], one for
    one, each kept in that sense, and the cost column if [f0] has it. *)
Definition row_kept (c0 c : Cluster) : Prop :=
  priority_score c = priority_score c0
  /\ dist_to_power_km c = dist_to_power_km c0
  /\ estimated_cost_usd c = estimated_cost_usd c0
  /\ (is_none c = true -> is_none c0 = true).

Definition same_shape (f0 f : GeoDataFrame) : Prop :=
  has_estimated_cost_usd f = has_estimated_cost_usd f0
  /\ Forall2 row_kept (rows f0) (rows f).

End Scenario.

(** ** frontend/backend/app/main.py: the recalculation endpoint *)
Module Backend.

(** [RecalculateRequest]: optional custom weights and the dry-run flag. *)
Record RecalculateRequest : Type := mkRequest {
  weights : option (gmap string Q);
  dry_run : bool
}.

(** What the endpoint answers: an [HTTPException] with its status code
    and detail, or the dictionary with its "status" and "message". *)
Inductive response : Type :=
| HTTPException (status_code : Z) (detail : string)
| Reply (status message : string).

(** Python's truth value of an [Optional[Dict]]: false for [None] and for
    the empty dictionary. *)
Definition truthy (w : option (gmap string Q)) : bool :=
  match w with
  | None => false
  | Some d => negb (bool_decide (d = ∅))
  end.

(** [recalculate_clusters(payload, background_tasks)]: the answer, and
    whether [run_scoring_job] was added to the background tasks. *)
Definition recalculate_clusters (payload : RecalculateRequest) : response * bool :=
  if truthy (weights payload) then
    (HTTPException 400
       "Custom weights are not yet supported in the current scoring pipeline.",
     false)
  else if dry_run payload then
    (Reply "ok" "Dry run successful; no job executed.", false)
  else
    (Reply "accepted"
       "Recalculation job submitted. Check /clusters or /status for updates.",
     true).

End Backend.

(** ** Concrete inputs used in the examples below *)
Module Examples.

(** The configuration with every dictionary empty, so that each [.get]
    falls back on its default. *)
Definition default_config : Scoring.Config := Scoring.mkConfig ∅ ∅ ∅ 5000.



(** The demand configuration with the defaults of
    [DemandConfig.from_config]. *)
Definition default_demand_config : Demand.DemandConfig :=
  Demand.mkDemandConfig ∅ 500 0.3 0.8 0.025 5000.

(** A scored cluster with priority score 80 whose upstream need score
    is 10. *)
Definition high_priority_low_need : Demand.Cluster :=
  Demand.mkCluster 80 "grid_extension" 5 None None (Some 10) None.

(** The same cluster with need score 70. *)
Definition high_priority_high_need : Demand.Cluster :=
  Demand.mkCluster 80 "grid_extension" 5 None None (Some 70) None.

Definition need_frame : Demand.GeoDataFrame :=
  Demand.mkFrame false false true false
    [high_priority_low_need; high_priority_high_need].

(** The least populated cluster of a scored dataset: its population score,
    and so its estimated population, is 0. *)
Definition empty_cluster : Demand.Cluster :=
  Demand.mkCluster 0 "standalone_solar" 0 None None (Some 0) None.

Definition populated_cluster : Demand.Cluster :=
  Demand.mkCluster 5 "mini_grid_solar" 2 None None (Some 50) None.

Definition growth_frame : list Demand.Baseline :=
  [Demand.baseline_row default_demand_config empty_cluster 0 0;
   Demand.baseline_row default_demand_config populated_cluster 1000 50].

(** A dataset with no records. *)
Definition empty_frame : Scenario.GeoDataFrame := Scenario.mkFrame true false [].

(** The three clusters of the end-to-end example: priority scores 80, 50,
    20 and grid distances 2, 10, 40. *)
Definition cluster_80 : Scenario.Cluster :=
  Scenario.mkCluster 80 2 (Some "mini_grid_solar") (Some "none") 100 10 5
    (Some 1000) None None.
Definition cluster_50 : Scenario.Cluster :=
  Scenario.mkCluster 50 10 (Some "mini_grid_solar") (Some "partial") 200 20 8
    (Some 2000) None None.
Definition cluster_20 : Scenario.Cluster :=
  Scenario.mkCluster 20 40 (Some "standalone_solar") (Some "electrified") 300 30 9
    (Some 3000) None None.

Definition three_clusters : Scenario.GeoDataFrame :=
  Scenario.mkFrame true false [cluster_80; cluster_50; cluster_20].

Definition extend_grid_to_one : Scenario.Intervention :=
  Scenario.mkIntervention (Some "grid_extension") (Some 1%Z)
    (Some "top_priority") None None.

Definition grow_population : Scenario.Intervention :=
  Scenario.mkIntervention (Some "population_growth") None None (Some 0.1) None.

Definition battery_storage : Scenario.Intervention :=
  Scenario.mkIntervention (Some "battery_storage") (Some 5%Z) None None None.

Definition growth_scenario : Scenario.ScenarioDefinition :=
  Scenario.mkScenario "Population growth" "ten percent more people"
    [grow_population].

Definition idle_scenario : Scenario.ScenarioDefinition :=
  Scenario.mkScenario "Baseline" "no intervention" [].

(** The store right after [load_baseline]: one frame, at reference 1. *)
Definition loaded (f : Scenario.GeoDataFrame) : gmap Scenario.loc Scenario.GeoDataFrame :=
  {[ 1%positive := f ]}.

(** An input frame of three records with a population column holding a
    null and a grid-distance column. *)
Definition upstream_frame : Scoring.DataFrame :=
  Scoring.mkDataFrame 3
    (<["pop_index" := [Some 0.2; None; Some 0.9]]>
       (<["dist_to_power_km" := [Some 3; Some 12; Some 40]]> ∅)).



(** A scored dataset of three clusters with population indices, need
    scores and building densities from upstream. *)
Definition scored_frame : Demand.GeoDataFrame :=
  Demand.mkFrame false true true true
    [Demand.mkCluster 8 "grid_extension" 10 None (Some 0.9) (Some 70) (Some 120);
     Demand.mkCluster 5 "mini_grid_solar" 4 None (Some 0.4) (Some 45) (Some 60);
     Demand.mkCluster 2 "standalone_solar" 0 None None (Some 10) None].



Definition add_solar : Scenario.Intervention :=
  Scenario.mkIntervention (Some "solar_capacity_addition") None None None (Some 30).


End Examples.

(** * Properties *)

(** ** Arithmetic helpers *)

Lemma Qge_bool_iff (a b : Q) : Qge_bool a b = true <-> b <= a.
Proof. unfold Qge_bool. apply Qle_bool_iff. Qed.

Lemma Qge_bool_false (a b : Q) : Qge_bool a b = false <-> a < b.
Proof.
  unfold Qge_bool. split; intros H.
  - apply Qnot_le_lt. intros Hle. apply Qle_bool_iff in Hle. congruence.
  - destruct (Qle_bool b a) eqn:E; [|reflexivity].
    apply Qle_bool_iff in E. lra.
Qed.

Lemma Qgt_bool_iff (a b : Q) : Qgt_bool a b = true <-> b < a.
Proof.
  unfold Qgt_bool. rewrite negb_true_iff. apply (Qge_bool_false b a).
Qed.

Lemma Qgt_bool_false (a b : Q) : Qgt_bool a b = false <-> a <= b.
Proof.
  unfold Qgt_bool. rewrite negb_false_iff. apply Qle_bool_iff.
Qed.

Lemma clip_bounds (x lo hi : Q) : lo <= hi -> lo <= clip x lo hi <= hi.
Proof.
  intros H. unfold clip. split.
  - apply Q.min_glb; [apply Q.le_max_r | exact H].
  - apply Q.le_min_r.
Qed.




(** ** Scoring Engine *)

Section ScoringProperties.

Import Scoring Examples.



Lemma isclose_eq (a b : Q) : a == b -> isclose a b = true.
Proof.
  intros E. unfold isclose. apply Qle_bool_iff.
  assert (H0 : Qabs (a - b) == 0).
  { rewrite (Qabs_wd (a - b) 0) by lra. reflexivity. }
  rewrite H0. pose proof (Qabs_nonneg b) as Hb.
  unfold atol, rtol. lra.
Qed.

Lemma normalize_to_ten_cons (x : float64) (values : list float64) (invert : bool) :
  normalize_to_ten (x :: values) invert
  = let arr := nan_to_num x :: map nan_to_num values in
    let vmax := arr_max (nan_to_num x) (map nan_to_num values) in
    let vmin := arr_min (nan_to_num x) (map nan_to_num values) in
    if isclose vmax vmin then map (fun _ => 5) arr
    else
      map (fun n => clip (n * 10) 0 10)
        (if invert
         then map (fun n => 1 - n) (map (fun x => (x - vmin) / (vmax - vmin)) arr)
         else map (fun x => (x - vmin) / (vmax - vmin)) arr).
Proof. reflexivity. Qed.

Lemma normalize_to_ten_length (values : list float64) (invert : bool) :
  length (normalize_to_ten values invert) = length values.
Proof.
  destruct values as [|x values]; [reflexivity|].
  rewrite normalize_to_ten_cons. cbv zeta. destruct (isclose _ _).
  - rewrite length_map. cbn [length]. rewrite length_map. reflexivity.
  - destruct invert; rewrite !length_map; cbn [length];
      rewrite length_map; reflexivity.
Qed.






Lemma recommend_solution_grid (config : Config)
    (distance_km population_index economic_score : Q) :
  let grid_rule := dict_get (recommendation_rules config) "grid_extension" ∅ in
  distance_km <= dict_get grid_rule "max_distance_km" 5 ->
  dict_get grid_rule "min_population_index" 0.6 <= population_index ->
  recommend_solution config distance_km population_index economic_score
  = "grid_extension"%string.
Proof.
  intros grid_rule Hd Hp. unfold recommend_solution.
  fold grid_rule.
  apply Qle_bool_iff in Hd. apply Qge_bool_iff in Hp.
  rewrite Hd, Hp. reflexivity.
Qed.

(** C5.  First match wins: a cluster that satisfies the grid-extension
    condition and the mini-grid-hybrid condition at once is recommended
    "grid_extension". *)
Theorem recommend_solution_first_match (config : Config)
    (distance_km population_index economic_score : Q) :
  let rules := recommendation_rules config in
  let grid_rule := dict_get rules "grid_extension" ∅ in
  let hybrid_rule := dict_get rules "mini_grid_hybrid" ∅ in
  distance_km <= dict_get grid_rule "max_distance_km" 5 ->
  dict_get grid_rule "min_population_index" 0.6 <= population_index ->
  distance_km <= dict_get hybrid_rule "max_distance_km" 15 ->
  dict_get hybrid_rule "min_population_index" 0.3 <= population_index ->
  dict_get hybrid_rule "min_road_density" 0.5
    <= clamp (economic_score / 10.0) 0.0 1.0 ->
  recommend_solution config distance_km population_index economic_score
  = "grid_extension"%string.
Proof.
  intros rules grid_rule hybrid_rule Hd Hp _ _ _.
  apply recommend_solution_grid; assumption.
Qed.

Lemma recommend_solution_first_match_witness :
  recommend_solution default_config 3 0.7 8 = "grid_extension"%string.
Proof.
  apply (recommend_solution_first_match default_config 3 0.7 8);
    vm_compute; congruence.
Defined.

(** When the grid-extension condition fails, the hybrid rule is the next
    one tried. *)
Lemma recommend_solution_hybrid_example :
  recommend_solution default_config 10 0.7 8 = "mini_grid_hybrid"%string.
Proof. reflexivity. Qed.

(** C6.  With [medium < high], the category of a composite score is
    "High" exactly when [composite >= high], "Medium" exactly when
    [medium <= composite < high], and "Low" exactly when
    [composite < medium]. *)
Theorem categorize_thresholds (config : Config) (composite : Q) :
  let high := dict_get (thresholds config) "high_priority" 7.0 in
  let medium := dict_get (thresholds config) "medium_priority" 5.0 in
  medium < high ->
  (categorize config composite = "High"%string <-> high <= composite)
  /\ (categorize config composite = "Medium"%string
      <-> medium <= composite /\ composite < high)
  /\ (categorize config composite = "Low"%string <-> composite < medium).
Proof.
  intros high medium Hlt. unfold categorize. fold high. fold medium.
  destruct (Qge_bool composite high) eqn:Eh.
  - apply Qge_bool_iff in Eh.
    repeat split; intros; try discriminate; try assumption; try lra.
  - apply Qge_bool_false in Eh.
    destruct (Qge_bool composite medium) eqn:Em.
    + apply Qge_bool_iff in Em.
      repeat split; intros; try discriminate; try assumption; try lra.
    + apply Qge_bool_false in Em.
      repeat split; intros; try discriminate; try assumption; try lra.
Qed.

Lemma categorize_thresholds_witness :
  categorize default_config 7.0 = "High"%string
  /\ categorize default_config 5.0 = "Medium"%string.
Proof.
  split.
  - apply (proj1 (categorize_thresholds default_config 7.0 ltac:(reflexivity))).
    vm_compute. congruence.
  - apply (proj1 (proj2 (categorize_thresholds default_config 5.0
                           ltac:(reflexivity)))).
    split; vm_compute; congruence.
Defined.











End ScoringProperties.

(** ** Demand Forecast Engine *)

Section DemandProperties.

Import Demand Examples.

Lemma _status_from_need_spec (score : Q) :
  (60 <= score -> _status_from_need score = "none"%string)
  /\ (40 <= score -> score < 60 -> _status_from_need score = "partial"%string)
  /\ (score < 40 -> _status_from_need score = "electrified"%string).
Proof.
  unfold _status_from_need. split; [|split].
  - intros H. apply Qge_bool_iff in H. rewrite H. reflexivity.
  - intros H40 H60. apply Qge_bool_iff in H40. apply Qge_bool_false in H60.
    rewrite H60, H40. reflexivity.
  - intros H. assert (H60 : score < 60) by lra.
    apply Qge_bool_false in H. apply Qge_bool_false in H60.
    rewrite H60, H. reflexivity.
Qed.

Lemma zip_baseline_lookup (config : DemandConfig) (cs : list Cluster)
    (pops needs : list Q) (i : nat) (b : Baseline) :
  zip_baseline config cs pops needs !! i = Some b ->
  exists c p n,
    cs !! i = Some c /\ pops !! i = Some p /\ needs !! i = Some n
    /\ b = baseline_row config c p n.
Proof.
  revert pops needs i.
  induction cs as [|c cs IH]; intros pops needs i H; [discriminate|].
  destruct pops as [|p pops]; [discriminate|].
  destruct needs as [|n needs]; [discriminate|].
  destruct i as [|i]; cbn in H |- *.
  - injection H as <-. exists c, p, n. repeat split; reflexivity.
  - apply (IH pops needs i H).
Qed.

Lemma zip_baseline_length (config : DemandConfig) (cs : list Cluster)
    (pops needs : list Q) :
  length pops = length cs -> length needs = length cs ->
  length (zip_baseline config cs pops needs) = length cs.
Proof.
  revert pops needs.
  induction cs as [|c cs IH]; intros pops needs Hp Hn; [reflexivity|].
  destruct pops as [|p pops]; [discriminate|].
  destruct needs as [|n needs]; [discriminate|].
  cbn in *. f_equal. apply IH; lia.
Qed.

Lemma lookup_map {A B : Type} (f : A -> B) (l : list A) (i : nat) :
  map f l !! i = f <$> (l !! i).
Proof.
  revert i. induction l as [|x l IH]; intros [|i]; cbn; try reflexivity.
  apply IH.
Qed.

Lemma _estimate_population_length (config : DemandConfig) (df : GeoDataFrame) :
  length (_estimate_population config df) = length (rows df).
Proof.
  unfold _estimate_population.
  destruct (has_norm_pop df); [|destruct (has_pop_index df)];
    rewrite !length_map; reflexivity.
Qed.

(** C1, amended.  When the frame has the [energy_need_score] column,
    [_baseline_demand] returns one record per input record, and the
    status of each is decided by that record's need score alone (a null
    or unparsable score counting as 0): "none" from 60 up, "partial" from
    40 up to 60, "electrified" below 40. *)
Theorem electrification_status_from_need_score (config : DemandConfig)
    (gdf : GeoDataFrame) :
  has_energy_need_score gdf = true ->
  exists out,
    _baseline_demand config gdf = Ok out
    /\ length out = length (rows gdf)
    /\ forall i b,
         out !! i = Some b ->
         exists c,
           rows gdf !! i = Some c
           /\ cluster b = c
           /\ electrification_status b
              = _status_from_need (fillna 0 (energy_need_score c))
           /\ let need := fillna 0 (energy_need_score c) in
              (60 <= need -> electrification_status b = "none"%string)
              /\ (40 <= need -> need < 60 ->
                  electrification_status b = "partial"%string)
              /\ (need < 40 -> electrification_status b = "electrified"%string).
Proof.
  intros Hcol. unfold _baseline_demand, need_score. rewrite Hcol.
  eexists. split; [reflexivity|]. split.
  - apply zip_baseline_length.
    + apply _estimate_population_length.
    + rewrite length_map. reflexivity.
  - intros i b Hb. apply zip_baseline_lookup in Hb.
    destruct Hb as (c & p & n & Hc & _ & Hn & ->).
    rewrite lookup_map, Hc in Hn. injection Hn as <-.
    exists c. split; [exact Hc|]. split; [reflexivity|].
    split; [reflexivity|]. cbn [electrification_status baseline_row].
    apply _status_from_need_spec.
Qed.

Lemma electrification_status_from_need_score_witness :
  exists out,
    _baseline_demand default_demand_config need_frame = Ok out
    /\ map electrification_status out = ["electrified"; "none"]%string.
Proof.
  destruct (electrification_status_from_need_score default_demand_config
              need_frame eq_refl) as (out & Hout & _ & _).
  exists out. split; [exact Hout|].
  vm_compute in Hout. injection Hout as <-. reflexivity.
Defined.

(** C1 as stated fails: the status is not read off [priority_score].  A
    cluster with priority score 80 and need score 10 comes out
    "electrified", and two clusters with the same priority score come out
    with different statuses. *)
Lemma electrification_status_counterexample :
  exists b1 b2,
    _baseline_demand default_demand_config need_frame = Ok [b1; b2]
    /\ 60 <= priority_score (cluster b1)
    /\ electrification_status b1 = "electrified"%string
    /\ priority_score (cluster b1) = priority_score (cluster b2)
    /\ electrification_status b2 = "none"%string.
Proof.
  do 2 eexists. split; [vm_compute; reflexivity|].
  split; [vm_compute; congruence|]. repeat split; reflexivity.
Qed.

(** Without the [energy_need_score] column the stage raises. *)
Lemma _baseline_demand_without_need_column (config : DemandConfig)
    (gdf : GeoDataFrame) :
  has_energy_need_score gdf = false ->
  _baseline_demand config gdf = Raise AttributeError.
Proof.
  intros H. unfold _baseline_demand, need_score. rewrite H. reflexivity.
Qed.









End DemandProperties.

(** ** Scenario Engine *)

Section ScenarioProperties.

Import Scenario Examples.

(** *** Impact accounting *)

Lemma py_max_floor (x : Q) : 0 <= py_max x 0 /\ py_max x 0 == Qmax x 0.
Proof.
  unfold py_max. destruct (Qgt_bool 0 x) eqn:E.
  - apply Qgt_bool_iff in E. split; [lra|].
    symmetry. apply Q.max_r. lra.
  - apply Qgt_bool_false in E. split; [exact E|].
    symmetry. apply Q.max_l. exact E.
Qed.

Lemma impacts_of_empty (baseline scenario : GeoDataFrame) :
  rows scenario = [] -> impacts_of baseline scenario = Raise ZeroDivisionError.
Proof. intros H. unfold impacts_of. rewrite H. reflexivity. Qed.

Lemma impacts_of_nonempty (baseline scenario : GeoDataFrame) :
  rows scenario <> [] -> exists i, impacts_of baseline scenario = Ok i.
Proof.
  intros H. unfold impacts_of.
  destruct (rows scenario) as [|c rs] eqn:E; [congruence|].
  cbn [length Nat.eqb]. eexists. reflexivity.
Qed.

(** C2.  On a dataset with no records the impact computation raises: the
    electrification rate divides by the number of records.  Here [run] is
    given an empty baseline and one scenario without interventions. *)
Theorem run_empty_baseline_raises :
  run 1%positive [idle_scenario] (loaded empty_frame)
  = (Raise ZeroDivisionError,
     <[2%positive := empty_frame]> (loaded empty_frame)).
Proof. vm_compute. reflexivity. Qed.

(** C8.  Whenever [calculate_impacts] returns, [people_electrified] is
    the baseline unelectrified population minus the scenario's, floored
    at 0, and [settlements_connected] is the difference of the counts of
    "none" records, floored at 0; neither is negative.  It returns
    unless the scenario frame has no records. *)
Theorem impacts_floored (baseline scenario : GeoDataFrame) :
  match impacts_of baseline scenario with
  | Ok i =>
      people_electrified i
      == Qmax (Qsum (map estimated_population (unelectrified baseline))
               - Qsum (map estimated_population (unelectrified scenario))) 0
      /\ 0 <= people_electrified i
      /\ settlements_connected i
         = inject_Z (Z.max (Z.of_nat (length (unelectrified baseline))
                            - Z.of_nat (length (unelectrified scenario))) 0)
      /\ 0 <= settlements_connected i
  | Raise e => rows scenario = [] /\ e = ZeroDivisionError
  end.
Proof.
  unfold impacts_of. destruct (rows scenario) as [|c rs] eqn:E.
  - cbn [length Nat.eqb]. split; reflexivity.
  - cbn [length Nat.eqb people_electrified settlements_connected].
    split; [apply py_max_floor|]. split; [apply py_max_floor|].
    split; [reflexivity|].
    change 0 with (inject_Z 0). rewrite <- Zle_Qle. lia.
Qed.

(** Population growth makes the unserved population larger than the
    baseline's; the reported progress is 0, not negative. *)
Lemma impacts_floored_example :
  exists i,
    run 1%positive [growth_scenario] (loaded three_clusters)
    = (Ok [i],
       <[3%positive :=
           mkFrame true false
             (map (fun c => set_tag "population_growth"
                              (scale_peak (1 + 0.1)
                                 (scale_demand (1 + 0.1)
                                    (scale_population (1 + 0.1) c))))
                  [cluster_80; cluster_50; cluster_20])]>
         (<[2%positive := three_clusters]> (loaded three_clusters)))
    /\ people_electrified i == 0
    /\ settlements_connected i == 0.
Proof.
  eexists. split; [vm_compute; reflexivity|]. split; reflexivity.
Qed.

(** *** The store: who writes where *)

Lemma writes_only_ret {A : Type} (l : loc) (a : A) : writes_only l (mret a).
Proof. intros h0 h r h' _ Hsub H. injection H as _ <-. exact Hsub. Qed.

Lemma writes_only_deref (l l' : loc) : writes_only l (deref l').
Proof.
  intros h0 h r h' _ Hsub H. unfold deref in H.
  destruct (h !! l'); injection H as _ <-; exact Hsub.
Qed.

Lemma writes_only_update (l : loc) (g : GeoDataFrame -> GeoDataFrame) :
  writes_only l (update l g).
Proof.
  intros h0 h r h' Hnone Hsub H. unfold update in H.
  destruct (h !! l); injection H as _ <-; [|exact Hsub].
  apply insert_subseteq_r; assumption.
Qed.

Lemma writes_only_bind {A B : Type} (l : loc) (m : M A) (k : A -> M B) :
  writes_only l m -> (forall a, writes_only l (k a)) -> writes_only l (m ≫= k).
Proof.
  intros Hm Hk h0 h r h' Hnone Hsub H. unfold mbind, M_bind in H.
  destruct (m h) as [[a|e] h1] eqn:E.
  - apply (Hk a h0 h1 r h' Hnone); [|exact H].
    apply (Hm h0 h (Ok a) h1 Hnone Hsub E).
  - injection H as _ <-. apply (Hm h0 h (Raise e) h1 Hnone Hsub E).
Qed.

Lemma writes_only_assign_loc (l : loc) (idx : list nat) (f : Cluster -> Cluster) :
  writes_only l (assign_loc l idx f).
Proof. apply writes_only_update. Qed.

Lemma writes_only_assign_all (l : loc) (f : Cluster -> Cluster) :
  writes_only l (assign_all l f).
Proof. apply writes_only_update. Qed.

Create HintDb footprint.

#[local] Hint Resolve writes_only_ret writes_only_deref writes_only_update
  writes_only_assign_loc writes_only_assign_all : footprint.

Ltac footprint :=
  repeat first
    [ apply writes_only_bind; [|intros ?]
    | solve [auto with footprint] ].

Lemma grows_ret {A : Type} (a : A) : grows (mret a).
Proof. intros h r h' H. injection H as _ <-. reflexivity. Qed.

Lemma grows_raise {A : Type} (e : exn) : grows (@raise A e).
Proof. intros h r h' H. injection H as _ <-. reflexivity. Qed.

Lemma grows_deref (l : loc) : grows (deref l).
Proof.
  intros h r h' H. unfold deref in H.
  destruct (h !! l); injection H as _ <-; reflexivity.
Qed.

Lemma fresh_unused (h : gmap loc GeoDataFrame) : h !! fresh (dom h) = None.
Proof. apply not_elem_of_dom. apply is_fresh. Qed.

Lemma grows_copy (l : loc) : grows (copy l).
Proof.
  intros h r h' H. unfold copy in H.
  destruct (h !! l); injection H as _ <-; [|reflexivity].
  apply insert_subseteq. apply fresh_unused.
Qed.

Lemma grows_bind {A B : Type} (m : M A) (k : A -> M B) :
  grows m -> (forall a, grows (k a)) -> grows (m ≫= k).
Proof.
  intros Hm Hk h r h' H. unfold mbind, M_bind in H.
  destruct (m h) as [[a|e] h1] eqn:E.
  - transitivity h1; [apply (Hm h (Ok a) h1 E)|apply (Hk a h1 r h' H)].
  - injection H as _ <-. apply (Hm h (Raise e) h1 E).
Qed.

(** A computation that copies a frame and then writes into the copy only
    leaves every frame it found as it was. *)
Lemma grows_copy_then {A : Type} (data : loc) (k : loc -> M A) :
  (forall l, writes_only l (k l)) -> grows (copy data ≫= k).
Proof.
  intros Hk h r h' H. unfold mbind, M_bind, copy in H.
  destruct (h !! data) as [f|]; [|injection H as _ <-; reflexivity].
  apply (Hk (fresh (dom h)) h (<[fresh (dom h) := f]> h) r h' (fresh_unused h));
    [|exact H].
  apply insert_subseteq. apply fresh_unused.
Qed.

Lemma apply_intervention_grows (data : loc) (intervention : Intervention) :
  grows (apply_intervention data intervention).
Proof.
  unfold apply_intervention. apply grows_copy_then. intros result.
  repeat match goal with
         | |- context [if is_type ?i ?t then _ else _] => destruct (is_type i t)
         end;
    cbv zeta; footprint.
Qed.

Lemma apply_all_grows (its : list Intervention) (scenario_data : loc) :
  grows (apply_all scenario_data its).
Proof.
  revert scenario_data. induction its as [|it its IH]; intros scenario_data.
  - apply grows_ret.
  - cbn [apply_all]. apply grows_bind; [apply apply_intervention_grows|].
    intros l. apply IH.
Qed.

Lemma calculate_impacts_grows (baseline scenario : loc) :
  grows (calculate_impacts baseline scenario).
Proof.
  unfold calculate_impacts.
  apply grows_bind; [apply grows_deref|]. intros b.
  apply grows_bind; [apply grows_deref|]. intros s.
  destruct (impacts_of b s); [apply grows_ret|apply grows_raise].
Qed.

Lemma run_scenarios_grows (baseline : loc) (defs : list ScenarioDefinition)
    (scenarios : list Impacts) :
  grows (run_scenarios baseline defs scenarios).
Proof.
  revert scenarios. induction defs as [|d defs IH]; intros scenarios.
  - apply grows_ret.
  - cbn [run_scenarios].
    apply grows_bind; [apply grows_copy|]. intros l.
    apply grows_bind; [apply apply_all_grows|]. intros l'.
    apply grows_bind; [apply calculate_impacts_grows|]. intros i.
    apply IH.
Qed.

(** Each intervention hands back a new frame: the reference it returns
    was not in use before. *)
Lemma copy_then_fresh {A : Type} (data : loc) (body : loc -> M A)
    (h h' : gmap loc GeoDataFrame) (result : loc) :
  (copy data ≫= fun l => body l;; mret l) h = (Ok result, h') ->
  h !! result = None.
Proof.
  unfold mbind, M_bind, copy. destruct (h !! data) as [f|]; [|discriminate].
  destruct (body _ _) as [[a|e] h1]; [|discriminate].
  intros H. injection H as <- _. apply fresh_unused.
Qed.

Lemma apply_intervention_fresh (data : loc) (intervention : Intervention)
    (h h' : gmap loc GeoDataFrame) (result : loc) :
  apply_intervention data intervention h = (Ok result, h') ->
  h !! result = None.
Proof. unfold apply_intervention. apply copy_then_fresh. Qed.

(** C9.  Whatever the scenario definitions, and whether [run] returns or
    raises, the baseline frame in the store afterwards is the frame that
    was loaded, and so is every other frame that was there before: each
    intervention leaves the frames it finds as they are and hands back a
    reference that was not in use. *)
Theorem run_preserves_baseline (baseline : loc) (defs : list ScenarioDefinition)
    (h h' : gmap loc GeoDataFrame) (f : GeoDataFrame) (r : outcome (list Impacts)) :
  h !! baseline = Some f ->
  run baseline defs h = (r, h') ->
  h' !! baseline = Some f
  /\ h ⊆ h'
  /\ (forall data intervention h1 h2 res,
        apply_intervention data intervention h1 = (res, h2) ->
        h1 ⊆ h2 /\ forall result, res = Ok result -> h1 !! result = None).
Proof.
  intros Hf Hrun. apply run_scenarios_grows in Hrun.
  split; [apply (lookup_weaken h h' baseline f Hf Hrun)|].
  split; [exact Hrun|].
  intros data intervention h1 h2 res Happly. split.
  - apply (apply_intervention_grows data intervention h1 res h2 Happly).
  - intros result ->. apply (apply_intervention_fresh _ _ _ _ _ Happly).
Qed.

Lemma run_preserves_baseline_witness :
  exists r h',
    run 1%positive [growth_scenario; idle_scenario] (loaded three_clusters)
    = (r, h')
    /\ h' !! 1%positive = Some three_clusters.
Proof.
  destruct (run 1%positive [growth_scenario; idle_scenario]
              (loaded three_clusters)) as [r h'] eqn:Hrun.
  exists r, h'. split; [reflexivity|].
  apply (run_preserves_baseline 1%positive [growth_scenario; idle_scenario]
           (loaded three_clusters) h' three_clusters r eq_refl Hrun).
Defined.

Lemma is_type_false (intervention : Intervention) (tag : string) :
  itype intervention <> Some tag -> is_type intervention tag = false.
Proof. intros H. unfold is_type. apply bool_decide_eq_false_2. exact H. Qed.

(** C10.  An intervention whose type is none of the five known ones (or
    is missing) does not raise, and returns a new frame with the contents
    of its input; the input frame is as it was. *)
Theorem apply_intervention_unknown_type (data : loc) (intervention : Intervention)
    (h : gmap loc GeoDataFrame) (f : GeoDataFrame) :
  h !! data = Some f ->
  itype intervention <> Some "grid_extension"%string ->
  itype intervention <> Some "mini_grid_deployment"%string ->
  itype intervention <> Some "population_growth"%string ->
  itype intervention <> Some "demand_increase"%string ->
  itype intervention <> Some "solar_capacity_addition"%string ->
  exists result h',
    apply_intervention data intervention h = (Ok result, h')
    /\ h' !! result = Some f
    /\ h' !! data = Some f
    /\ result <> data
    /\ h' = <[result := f]> h.
Proof.
  intros Hf H1 H2 H3 H4 H5.
  exists (fresh (dom h)), (<[fresh (dom h) := f]> h).
  assert (Hne : fresh (dom h) <> data).
  { intros E. pose proof (fresh_unused h) as Hn. rewrite E in Hn. congruence. }
  split; [|split; [|split; [|split]]].
  - unfold apply_intervention.
    rewrite !is_type_false by assumption.
    unfold mbind, M_bind, copy, mret, M_ret. rewrite Hf. reflexivity.
  - apply lookup_insert_eq.
  - rewrite lookup_insert_ne by exact Hne. exact Hf.
  - exact Hne.
  - reflexivity.
Qed.

Lemma apply_intervention_unknown_type_witness :
  exists result h',
    apply_intervention 1%positive battery_storage (loaded three_clusters)
    = (Ok result, h')
    /\ h' !! result = Some three_clusters.
Proof.
  destruct (apply_intervention_unknown_type 1%positive battery_storage
              (loaded three_clusters) three_clusters eq_refl
              ltac:(discriminate) ltac:(discriminate) ltac:(discriminate)
              ltac:(discriminate) ltac:(discriminate))
    as (result & h' & Hrun & Hres & _).
  exists result, h'. split; assumption.
Defined.

(** The end-to-end example of the specification: of three clusters with
    priority scores 80, 50, 20, extending the grid to one cluster by top
    priority electrifies the first, multiplies its demand by 1.5 and
    leaves the other two as they were. *)
Lemma grid_extension_top_priority_example :
  exists h',
    apply_intervention 1%positive extend_grid_to_one (loaded three_clusters)
    = (Ok 2%positive, h')
    /\ h' !! 1%positive = Some three_clusters
    /\ h' !! 2%positive
       = Some (mkFrame true false
                 [set_tag "grid_extension"
                    (scale_demand 1.5
                       (set_solution "grid_extension"
                          (set_status "electrified" cluster_80)));
                  cluster_50; cluster_20]).
Proof.
  eexists. split; [vm_compute; reflexivity|]. split; vm_compute; reflexivity.
Qed.

End ScenarioProperties.

(** * Further properties of the pipeline *)

(** ** Scoring Engine: field resolution and normalization *)

Section ScoringFurther.

Import Scoring Examples.

Lemma resolve_field_skip (data : DataFrame) (absent candidates : list string)
    (dflt : Q) :
  Forall (fun field => columns data !! field = None) absent ->
  resolve_field data (absent ++ candidates) dflt
  = resolve_field data candidates dflt.
Proof.
  induction 1 as [|field absent Hf _ IH]; [reflexivity|].
  cbn [app resolve_field]. rewrite Hf. exact IH.
Qed.

(** X1.  [resolve_field] takes the first candidate that is a column of
    the frame, whatever absent names come before it and whatever names
    come after, and fills its nulls with the default; when no candidate
    is a column it returns one default per record. *)
Theorem resolve_field_first_present (data : DataFrame)
    (absent rest : list string) (field : string) (col : list (option Q))
    (dflt : Q) :
  Forall (fun f => columns data !! f = None) absent ->
  columns data !! field = Some col ->
  resolve_field data (absent ++ field :: rest) dflt
  = map (fun c => default dflt c) col
  /\ resolve_field data absent dflt = replicate (nrows data) dflt.
Proof.
  intros Habsent Hcol. split.
  - rewrite resolve_field_skip by exact Habsent.
    cbn [resolve_field]. rewrite Hcol. reflexivity.
  - rewrite <- (app_nil_r absent) at 1.
    rewrite resolve_field_skip by exact Habsent. reflexivity.
Qed.

Lemma resolve_field_first_present_witness :
  resolve_field upstream_frame ["norm_pop"; "pop_index"; "dist_to_power_km"] 0.0
  = [0.2; 0.0; 0.9].
Proof.
  apply (proj1 (resolve_field_first_present upstream_frame ["norm_pop"%string]
                  ["dist_to_power_km"%string] "pop_index"
                  [Some 0.2; None; Some 0.9] 0.0
                  ltac:(repeat constructor) eq_refl)).
Defined.

(** X2.  The population estimate reads the same values as
    [resolve_field] with default 0.0 does: the population index and the
    estimated population of a record come from the same cell. *)
Theorem population_values_resolve_field (frame : DataFrame)
    (candidates : list string) (scale : Q) :
  utils_estimate_population frame candidates scale
  = estimate_population (resolve_field frame candidates 0.0) scale.
Proof.
  unfold utils_estimate_population. f_equal.
  induction candidates as [|field candidates IH]; [reflexivity|].
  cbn [population_values resolve_field].
  destruct (columns frame !! field); [reflexivity|exact IH].
Qed.

Lemma arr_min_le (a : Q) (rest : list Q) (y : Q) :
  In y (a :: rest) -> arr_min a rest <= y.
Proof.
  unfold arr_min. revert a y. induction rest as [|x rest IH]; intros a y Hy.
  - destruct Hy as [<-|[]]. cbn. lra.
  - cbn [fold_left].
    assert (Hstep : fold_left Qmin rest (Qmin a x) <= Qmin a x).
    { apply IH. left. reflexivity. }
    destruct Hy as [<-|[<-|Hy]].
    + pose proof (Q.le_min_l a x). lra.
    + pose proof (Q.le_min_r a x). lra.
    + apply IH. right. exact Hy.
Qed.

Lemma arr_max_ge (a : Q) (rest : list Q) (y : Q) :
  In y (a :: rest) -> y <= arr_max a rest.
Proof.
  unfold arr_max. revert a y. induction rest as [|x rest IH]; intros a y Hy.
  - destruct Hy as [<-|[]]. cbn. lra.
  - cbn [fold_left].
    assert (Hstep : Qmax a x <= fold_left Qmax rest (Qmax a x)).
    { apply IH. left. reflexivity. }
    destruct Hy as [<-|[<-|Hy]].
    + pose proof (Q.le_max_l a x). lra.
    + pose proof (Q.le_max_r a x). lra.
    + apply IH. right. exact Hy.
Qed.

Lemma isclose_false_lt (a : Q) (rest : list Q) :
  isclose (arr_max a rest) (arr_min a rest) = false ->
  arr_min a rest < arr_max a rest.
Proof.
  intros Hc.
  assert (Hle : arr_min a rest <= arr_max a rest).
  { pose proof (arr_min_le a rest a (or_introl eq_refl)).
    pose proof (arr_max_ge a rest a (or_introl eq_refl)). lra. }
  destruct (Qlt_le_dec (arr_min a rest) (arr_max a rest)) as [Hlt|Hge];
    [exact Hlt|].
  rewrite isclose_eq in Hc; [discriminate|lra].
Qed.


Lemma clip_monotone (x y lo hi : Q) : x <= y -> clip x lo hi <= clip y lo hi.
Proof.
  intros H. unfold clip.
  apply Q.min_le_compat_r. apply Q.max_le_compat_r. exact H.
Qed.

(** The output at one position, in terms of the input at that position
    and of the range of the array. *)
Lemma normalize_to_ten_lookup (x0 : float64) (vs : list float64) (invert : bool)
    (i : nat) (x : float64) :
  (x0 :: vs) !! i = Some x ->
  let vmax := arr_max (nan_to_num x0) (map nan_to_num vs) in
  let vmin := arr_min (nan_to_num x0) (map nan_to_num vs) in
  let n := (nan_to_num x - vmin) / (vmax - vmin) in
  normalize_to_ten (x0 :: vs) invert !! i
  = Some (if isclose vmax vmin then 5
          else clip ((if invert then 1 - n else n) * 10) 0 10).
Proof.
  intros Hx vmax vmin n. rewrite normalize_to_ten_cons. cbv zeta.
  fold vmax. fold vmin.
  assert (Hq : (nan_to_num x0 :: map nan_to_num vs) !! i = Some (nan_to_num x)).
  { change (nan_to_num x0 :: map nan_to_num vs) with (map nan_to_num (x0 :: vs)).
    rewrite lookup_map, Hx. reflexivity. }
  destruct (isclose vmax vmin).
  - rewrite lookup_map, Hq. reflexivity.
  - destruct invert; rewrite !lookup_map, Hq; reflexivity.
Qed.





(** X4.  Normalization keeps the order of the values: of two positions,
    the one with the smaller value (non-finite read as 0) gets the
    smaller or equal score, and with [invert] the larger or equal one. *)
Theorem normalize_to_ten_monotone (values : list float64) (i j : nat)
    (x y : float64) :
  values !! i = Some x ->
  values !! j = Some y ->
  nan_to_num x <= nan_to_num y ->
  (exists a b,
     normalize_to_ten values false !! i = Some a
     /\ normalize_to_ten values false !! j = Some b
     /\ a <= b)
  /\ (exists a b,
        normalize_to_ten values true !! i = Some a
        /\ normalize_to_ten values true !! j = Some b
        /\ b <= a).
Proof.
  intros Hx Hy Hle. destruct values as [|x0 vs]; [discriminate|].
  rewrite (normalize_to_ten_lookup x0 vs false i x Hx).
  rewrite (normalize_to_ten_lookup x0 vs false j y Hy).
  rewrite (normalize_to_ten_lookup x0 vs true i x Hx).
  rewrite (normalize_to_ten_lookup x0 vs true j y Hy). cbv zeta.
  destruct (isclose _ _) eqn:Hc.
  - split; do 2 eexists; (split; [reflexivity|]); (split; [reflexivity|]); lra.
  - apply isclose_false_lt in Hc.
    set (vmin := arr_min (nan_to_num x0) (map nan_to_num vs)) in *.
    set (vmax := arr_max (nan_to_num x0) (map nan_to_num vs)) in *.
    assert (Hn : (nan_to_num x - vmin) / (vmax - vmin)
                 <= (nan_to_num y - vmin) / (vmax - vmin)).
    { apply Qle_shift_div_l; [lra|].
      unfold Qdiv. rewrite <- Qmult_assoc.
      rewrite (Qmult_comm (/ (vmax - vmin))).
      rewrite Qmult_inv_r by lra. lra. }
    split; do 2 eexists; (split; [reflexivity|]); (split; [reflexivity|]);
      apply clip_monotone; lra.
Qed.

Lemma normalize_to_ten_monotone_witness :
  exists a b,
    normalize_to_ten [Finite 2; NaN; Finite 8] false !! 1%nat = Some a
    /\ normalize_to_ten [Finite 2; NaN; Finite 8] false !! 0%nat = Some b
    /\ a <= b.
Proof.
  apply (proj1 (normalize_to_ten_monotone [Finite 2; NaN; Finite 8] 1 0
                  NaN (Finite 2) eq_refl eq_refl ltac:(vm_compute; congruence))).
Defined.



(** *** Population estimate, recommendation, and the enriched records *)

Lemma estimate_population_length (values : list Q) (scale : Q) :
  length (estimate_population values scale) = length values.
Proof.
  unfold estimate_population. destruct values as [|a rest]; [reflexivity|].
  destruct (Qgt_bool _ _); rewrite !length_map; reflexivity.
Qed.

Lemma estimate_population_range (values : list Q) (scale : Q) :
  0 <= scale ->
  Forall (fun p => 0 <= p /\ p <= scale) (estimate_population values scale).
Proof.
  intros Hs. unfold estimate_population.
  apply List.Forall_forall. intros p Hp. apply in_map_iff in Hp.
  destruct Hp as [v [<- _]].
  pose proof (clip_bounds v 0 1 ltac:(lra)) as [H0 H1]. split; nra.
Qed.

(** X6.  For a population scale that is not negative, every population
    estimate lies between 0 and the scale, and there is one per input
    value, whether or not the column was read as a percentage. *)
Theorem estimate_population_bounds (values : list Q) (scale : Q) :
  0 <= scale ->
  length (estimate_population values scale) = length values
  /\ Forall (fun p => 0 <= p /\ p <= scale) (estimate_population values scale).
Proof.
  intros Hs. split;
    [apply estimate_population_length|apply estimate_population_range, Hs].
Qed.

Lemma estimate_population_bounds_witness :
  Forall (fun p => 0 <= p /\ p <= 5000) (estimate_population [0.5; 250; -3] 5000).
Proof.
  apply (proj2 (estimate_population_bounds [0.5; 250; -3] 5000
                  ltac:(vm_compute; congruence))).
Defined.

(** X7.  The decision table of [recommend_solution]: "grid_extension"
    exactly when the grid rule holds; "mini_grid_hybrid" exactly when it
    fails and the hybrid rule holds; "standalone_solar" exactly when both
    fail and the standalone rule holds; "mini_grid_solar" exactly when all
    three fail.  No other name is returned. *)
Theorem recommend_solution_table (config : Config)
    (distance_km population_index economic_score : Q) :
  let rules := recommendation_rules config in
  let grid_rule := dict_get rules "grid_extension" ∅ in
  let hybrid_rule := dict_get rules "mini_grid_hybrid" ∅ in
  let standalone_rule := dict_get rules "standalone_solar" ∅ in
  let G := distance_km <= dict_get grid_rule "max_distance_km" 5
           /\ dict_get grid_rule "min_population_index" 0.6 <= population_index in
  let H := distance_km <= dict_get hybrid_rule "max_distance_km" 15
           /\ dict_get hybrid_rule "min_population_index" 0.3 <= population_index
           /\ dict_get hybrid_rule "min_road_density" 0.5
              <= clamp (economic_score / 10.0) 0.0 1.0 in
  let S := dict_get standalone_rule "min_distance_km" 25 <= distance_km
           /\ population_index
              <= dict_get standalone_rule "max_population_index" 0.2 in
  let r := recommend_solution config distance_km population_index economic_score in
  (r = "grid_extension"%string <-> G)
  /\ (r = "mini_grid_hybrid"%string <-> ~ G /\ H)
  /\ (r = "standalone_solar"%string <-> ~ G /\ ~ H /\ S)
  /\ (r = "mini_grid_solar"%string <-> ~ G /\ ~ H /\ ~ S)
  /\ (r = "grid_extension"%string \/ r = "mini_grid_hybrid"%string
      \/ r = "standalone_solar"%string \/ r = "mini_grid_solar"%string).
Proof.
  intros rules grid_rule hybrid_rule standalone_rule G H S r.
  subst r. unfold recommend_solution.
  fold rules. fold grid_rule. fold hybrid_rule. fold standalone_rule.
  assert (HG : Qle_bool distance_km (dict_get grid_rule "max_distance_km" 5)
               && Qge_bool population_index
                    (dict_get grid_rule "min_population_index" 0.6) = true
               <-> G).
  { subst G. rewrite andb_true_iff, Qle_bool_iff, Qge_bool_iff. reflexivity. }
  assert (HH : Qle_bool distance_km (dict_get hybrid_rule "max_distance_km" 15)
               && Qge_bool population_index
                    (dict_get hybrid_rule "min_population_index" 0.3)
               && Qge_bool (clamp (economic_score / 10.0) 0.0 1.0)
                    (dict_get hybrid_rule "min_road_density" 0.5) = true
               <-> H).
  { subst H. rewrite !andb_true_iff, Qle_bool_iff, !Qge_bool_iff. tauto. }
  assert (HS : Qge_bool distance_km (dict_get standalone_rule "min_distance_km" 25)
               && Qle_bool population_index
                    (dict_get standalone_rule "max_population_index" 0.2) = true
               <-> S).
  { subst S. rewrite andb_true_iff, Qle_bool_iff, Qge_bool_iff. reflexivity. }
  clearbody G H S.
  destruct (Qle_bool distance_km _ && Qge_bool population_index _) eqn:EG.
  { assert G by (apply HG; reflexivity).
    repeat split; intros; try discriminate; try tauto. }
  assert (~ G) by (intros HG'; apply HG in HG'; discriminate).
  destruct (Qle_bool distance_km _ && Qge_bool population_index _
            && Qge_bool _ _) eqn:EH.
  { assert H by (apply HH; reflexivity).
    repeat split; intros; try discriminate; try tauto. }
  assert (~ H) by (intros HH'; apply HH in HH'; discriminate).
  destruct (Qge_bool distance_km _ && Qle_bool population_index _) eqn:ES.
  { assert S by (apply HS; reflexivity).
    repeat split; intros; try discriminate; try tauto. }
  assert (~ S) by (intros HS'; apply HS in HS'; discriminate).
  repeat split; intros; try discriminate; try tauto.
Qed.

Lemma zip_scored_length (p a e s g pop : list Q) (n : nat) :
  length p = n -> length a = n -> length e = n -> length s = n ->
  length g = n -> length pop = n ->
  length (zip_scored p a e s g pop) = n.
Proof.
  revert p a e s g pop. induction n as [|n IH]; intros p a e s g pop;
    destruct p, a, e, s, g, pop; cbn; try discriminate; try reflexivity.
  intros. f_equal. apply IH; lia.
Qed.


(** X8.  [compute_scores] returns exactly one enriched record per input
    record: none is dropped, none is added. *)
Theorem compute_scores_length (config : Config) (gdf : list Resolved) :
  length (compute_scores config gdf) = length gdf.
Proof.
  unfold compute_scores. apply length_zip_with_l_eq. symmetry.
  apply zip_scored_length;
    try (rewrite normalize_to_ten_length; unfold column; apply length_map).
  rewrite estimate_population_length. apply length_map.
Qed.











End ScoringFurther.

(** ** Demand Forecast Engine: baseline, growth tiers, totals *)

Section DemandFurther.

Import Demand Examples.

Lemma py_max_ge (a b : Q) : a <= py_max a b /\ b <= py_max a b.
Proof.
  unfold py_max. destruct (Qgt_bool b a) eqn:E.
  - apply Qgt_bool_iff in E. split; lra.
  - apply Qgt_bool_false in E. split; lra.
Qed.

Lemma peak_kw_nonneg (config : DemandConfig) (d : Q) :
  0 <= d -> 0 <= peak_kw config d.
Proof.
  intros Hd. unfold peak_kw.
  pose proof (py_max_ge (load_factor config) 0.01) as [_ Hm].
  apply Qle_shift_div_l; nra.
Qed.

(** X12.  The peak-demand formula never divides by zero: the load factor
    is floored at 0.01, so a load factor of 0 (or a negative one) gives
    the peak of load factor 0.01, and a demand that is not negative gives
    a peak between 0 and that value. *)
Theorem peak_kw_load_factor_floor (config : DemandConfig) (d : Q) :
  (load_factor config <= 0.01 -> peak_kw config d == d * 1000 / 87.6)
  /\ (0 <= d -> 0 <= peak_kw config d /\ peak_kw config d <= d * 1000 / 87.6).
Proof.
  split.
  - intros Hlf. unfold peak_kw.
    assert (Hm : py_max (load_factor config) 0.01 == 0.01).
    { unfold py_max. destruct (Qgt_bool 0.01 (load_factor config)) eqn:E;
        [reflexivity|]. apply Qgt_bool_false in E. lra. }
    assert (Hc : 365 * 24 * 0.01 == 87.6) by reflexivity.
    rewrite Hm, Hc. reflexivity.
  - intros Hd. split; [apply peak_kw_nonneg, Hd|].
    unfold peak_kw.
    pose proof (py_max_ge (load_factor config) 0.01) as [_ Hm].
    apply Qle_shift_div_l; [reflexivity|].
    unfold Qdiv. rewrite <- Qmult_assoc, (Qmult_comm (/ _)), Qmult_assoc.
    apply Qle_shift_div_r; nra.
Qed.

Lemma peak_kw_load_factor_floor_witness :
  peak_kw (mkDemandConfig ∅ 500 0 0.8 0.025 5000) 876 == 10000.
Proof.
  rewrite (proj1 (peak_kw_load_factor_floor
                    (mkDemandConfig ∅ 500 0 0.8 0.025 5000) 876)
             ltac:(vm_compute; congruence)).
  reflexivity.
Defined.

Lemma household_demand_bands (need : Q) :
  let status := _status_from_need need in
  (status = "none"%string /\ household_demand status need = 450)
  \/ (status = "partial"%string /\ household_demand status need = 800)
  \/ (status = "electrified"%string /\ 1800 < household_demand status need).
Proof.
  unfold _status_from_need.
  destruct (Qge_bool need 60) eqn:E60; [left; split; reflexivity|].
  destruct (Qge_bool need 40) eqn:E40; [right; left; split; reflexivity|].
  right; right. split; [reflexivity|].
  apply Qge_bool_false in E40. unfold household_demand. cbn. lra.
Qed.

Lemma _estimate_population_range (config : DemandConfig) (df : GeoDataFrame) :
  0 <= population_scale config ->
  Forall (fun p => 0 <= p /\ p <= population_scale config)
    (_estimate_population config df).
Proof.
  intros Hs. unfold _estimate_population.
  apply List.Forall_forall. intros p Hp. apply in_map_iff in Hp.
  destruct Hp as [c [<- _]].
  pose proof (clip_bounds (fillna 0.0 c) 0 1 ltac:(lra)) as [H0 H1].
  split; nra.
Qed.

(** X13.  Every record [_baseline_demand] returns falls in one of three
    bands: status "none" with 450 kWh per household, "partial" with 800,
    or "electrified" with more than 1800. *)
Theorem baseline_household_demand_bands (config : DemandConfig)
    (gdf : GeoDataFrame) (out : list Baseline) (i : nat) (b : Baseline) :
  _baseline_demand config gdf = Ok out ->
  out !! i = Some b ->
  (electrification_status b = "none"%string
   /\ demand_per_household_kwh b = 450)
  \/ (electrification_status b = "partial"%string
      /\ demand_per_household_kwh b = 800)
  \/ (electrification_status b = "electrified"%string
      /\ 1800 < demand_per_household_kwh b).
Proof.
  unfold _baseline_demand. destruct (need_score gdf) as [need|e];
    [|discriminate].
  intros Hout Hb. injection Hout as <-.
  apply zip_baseline_lookup in Hb. destruct Hb as (c & p & n & _ & _ & _ & ->).
  cbn [baseline_row electrification_status demand_per_household_kwh].
  apply household_demand_bands.
Qed.

Lemma baseline_household_demand_bands_witness :
  exists out b,
    _baseline_demand default_demand_config scored_frame = Ok out
    /\ out !! 2%nat = Some b
    /\ electrification_status b = "electrified"%string
    /\ 1800 < demand_per_household_kwh b.
Proof.
  destruct (_baseline_demand default_demand_config scored_frame) as [out|]
    eqn:Hout; [|vm_compute in Hout; discriminate].
  destruct (out !! 2%nat) as [b|] eqn:Hb;
    [|vm_compute in Hout; injection Hout as <-; discriminate].
  exists out, b. split; [reflexivity|]. split; [exact Hb|].
  destruct (baseline_household_demand_bands default_demand_config scored_frame
              out 2 b Hout Hb) as [[Hs _]|[[Hs _]|H]]; [| |exact H];
    vm_compute in Hout; injection Hout as <-; injection Hb as <-;
    discriminate.
Defined.

(** X14.  With a population scale that is not negative, every baseline
    record has an estimated population between 0 and the scale, and a
    baseline demand and a baseline peak demand that are not negative. *)
Theorem baseline_demand_nonneg (config : DemandConfig) (gdf : GeoDataFrame)
    (out : list Baseline) (i : nat) (b : Baseline) :
  0 <= population_scale config ->
  _baseline_demand config gdf = Ok out ->
  out !! i = Some b ->
  (0 <= estimated_population b /\ estimated_population b <= population_scale config)
  /\ 0 <= baseline_demand_mwh_year b
  /\ 0 <= baseline_peak_demand_kw b.
Proof.
  intros Hs. unfold _baseline_demand.
  destruct (need_score gdf) as [need|e]; [|discriminate].
  intros Hout Hb. injection Hout as <-.
  apply zip_baseline_lookup in Hb. destruct Hb as (c & p & n & _ & Hp & _ & ->).
  pose proof (Forall_lookup_1 _ _ _ _ (_estimate_population_range config gdf Hs) Hp)
    as [Hp0 Hp1].
  cbn [baseline_row estimated_population baseline_demand_mwh_year
         baseline_peak_demand_kw].
  assert (Hd : 0 <= p * 0.3 * household_demand (_status_from_need n) n / 1000).
  { apply Qle_shift_div_l; [reflexivity|].
    destruct (household_demand_bands n) as [[_ ->]|[[_ ->]|[_ H]]]; nra. }
  split; [split; assumption|]. split; [exact Hd|].
  apply peak_kw_nonneg. exact Hd.
Qed.

Lemma baseline_demand_nonneg_witness :
  exists out b,
    _baseline_demand default_demand_config scored_frame = Ok out
    /\ out !! 0%nat = Some b
    /\ 0 <= baseline_demand_mwh_year b.
Proof.
  destruct (_baseline_demand default_demand_config scored_frame) as [out|]
    eqn:Hout; [|vm_compute in Hout; discriminate].
  destruct (out !! 0%nat) as [b|] eqn:Hb;
    [|vm_compute in Hout; injection Hout as <-; discriminate].
  exists out, b. split; [reflexivity|]. split; [exact Hb|].
  apply (baseline_demand_nonneg default_demand_config scored_frame out 0 b
           ltac:(vm_compute; congruence) Hout Hb).
Defined.

(** X15.  With thresholds and rates in their natural order (peri-urban
    threshold below the urban one, rural rate below the peri-urban rate
    below the urban rate), the growth rate never decreases with the
    building density; a null density gets the rural rate. *)
Theorem _population_growth_monotone (config : DemandConfig) (d1 d2 : Q) :
  let growth := population_growth config in
  dict_get growth "peri_urban_density_threshold" 50
    <= dict_get growth "urban_density_threshold" 100 ->
  dict_get growth "rural_rate" 0.015 <= dict_get growth "peri_urban_rate" 0.025 ->
  dict_get growth "peri_urban_rate" 0.025 <= dict_get growth "urban_rate" 0.035 ->
  d1 <= d2 ->
  _population_growth config (Some d1) <= _population_growth config (Some d2)
  /\ _population_growth config None = dict_get growth "rural_rate" 0.015.
Proof.
  intros growth Ht Hr1 Hr2 Hd. split; [|reflexivity].
  unfold _population_growth, cell_ge. fold growth.
  destruct (Qge_bool d1 (dict_get growth "urban_density_threshold" 100)) eqn:E1u;
    destruct (Qge_bool d2 (dict_get growth "urban_density_threshold" 100)) eqn:E2u;
    destruct (Qge_bool d1 (dict_get growth "peri_urban_density_threshold" 50)) eqn:E1p;
    destruct (Qge_bool d2 (dict_get growth "peri_urban_density_threshold" 50)) eqn:E2p;
    repeat match goal with
           | H : Qge_bool _ _ = true |- _ => apply Qge_bool_iff in H
           | H : Qge_bool _ _ = false |- _ => apply Qge_bool_false in H
           end;
    lra.
Qed.

Lemma _population_growth_monotone_witness :
  _population_growth default_demand_config (Some 60)
  <= _population_growth default_demand_config (Some 120).
Proof.
  apply (proj1 (_population_growth_monotone default_demand_config 60 120
                  ltac:(vm_compute; congruence) ltac:(vm_compute; congruence)
                  ltac:(vm_compute; congruence) ltac:(vm_compute; congruence))).
Defined.

(** X16.  For a record with a population that is not negative, growth
    rates of at least -100% and a per-capita consumption that is not
    negative, the projected population, demand and peak demand are not
    negative, and the projected demand is at most that of the fully
    electrified projected population. *)
Theorem forecast_demand_bounds (config : DemandConfig) (has_density : bool)
    (gdf : list Baseline) (target_year : Z) (i : nat) (f : Forecast) :
  _forecast_demand config has_density gdf target_year !! i = Some f ->
  0 <= estimated_population (base f) ->
  -1 <= _population_growth config
          (if has_density then building_density (cluster (base f)) else Some 0) ->
  0 <= baseline_consumption config ->
  -1 <= consumption_growth_rate config ->
  0 <= population_target f
  /\ 0 <= demand_target_mwh_year f
  /\ demand_target_mwh_year f
     <= population_target f * baseline_consumption config
        * (1 + consumption_growth_rate config) ^ years_to target_year / 1000
  /\ 0 <= peak_demand_target_kw f.
Proof.
  unfold _forecast_demand. rewrite lookup_map.
  destruct (gdf !! i) as [b|]; [|discriminate].
  intros Hf. injection Hf as <-.
  cbn [base population_target demand_target_mwh_year peak_demand_target_kw].
  intros Hpop Hrate Hbase Hcgr.
  set (rate := _population_growth config _) in *.
  set (fe := clip _ 0.0 1.0).
  set (m := (1 + consumption_growth_rate config) ^ years_to target_year).
  assert (Hfe : 0 <= fe /\ fe <= 1).
  { subst fe.
    match goal with
    | |- 0 <= clip ?x _ _ /\ _ =>
        pose proof (clip_bounds x 0.0 1.0 ltac:(lra)) as [H0 H1]
    end.
    split; lra. }
  assert (Hm : 0 <= m) by (apply Qpower_0_le; lra).
  assert (Hfp : 0 <= future_population (estimated_population b) rate target_year).
  { unfold future_population.
    assert (0 <= (1 + rate) ^ years_to target_year) by (apply Qpower_0_le; lra).
    nra. }
  set (fp := future_population (estimated_population b) rate target_year) in *.
  assert (Hpb : 0 <= fp * baseline_consumption config) by nra.
  assert (Hpbm : 0 <= fp * baseline_consumption config * m) by nra.
  assert (Hd : 0 <= fp * fe * baseline_consumption config * m / 1000).
  { apply Qle_shift_div_l; [reflexivity|].
    assert (0 <= fe * (fp * baseline_consumption config * m)) by nra. lra. }
  split; [exact Hfp|]. split; [exact Hd|]. split.
  - apply Qle_shift_div_l; [reflexivity|].
    unfold Qdiv. rewrite <- Qmult_assoc, (Qmult_comm (/ 1000)).
    rewrite Qmult_inv_r by discriminate.
    assert (fe * (fp * baseline_consumption config * m)
            <= 1 * (fp * baseline_consumption config * m)) by nra.
    lra.
  - apply peak_kw_nonneg. exact Hd.
Qed.

Lemma forecast_demand_bounds_witness :
  exists f,
    _forecast_demand default_demand_config false growth_frame 2030 !! 1%nat
    = Some f
    /\ 0 <= demand_target_mwh_year f.
Proof.
  destruct (_forecast_demand default_demand_config false growth_frame 2030
              !! 1%nat) as [f|] eqn:Hf; [|vm_compute in Hf; discriminate].
  exists f. split; [reflexivity|].
  refine (proj1 (proj2 (forecast_demand_bounds default_demand_config false
                          growth_frame 2030 1 f Hf _ _ _ _))).
  - vm_compute in Hf. injection Hf as <-. vm_compute. congruence.
  - vm_compute. congruence.
  - vm_compute. congruence.
  - vm_compute. congruence.
Defined.



Lemma Qsum_acc (l : list Q) (a : Q) : fold_left Qplus l a == a + Qsum l.
Proof.
  unfold Qsum. revert a. induction l as [|x l IH]; intros a; cbn [fold_left].
  - ring.
  - rewrite (IH (a + x)), (IH (0 + x)). ring.
Qed.

Lemma Qsum_cons (x : Q) (l : list Q) : Qsum (x :: l) == x + Qsum l.
Proof. unfold Qsum at 1. cbn [fold_left]. rewrite Qsum_acc. ring. Qed.






End DemandFurther.

(** ** Scenario Engine: what each intervention does to the frame *)

Section ScenarioFurther.

Import Scenario Examples.

Ltac decide_type Hty :=
  unfold is_type; rewrite Hty;
  repeat first
    [ rewrite bool_decide_eq_true_2 by reflexivity
    | rewrite bool_decide_eq_false_2 by discriminate ].

Ltac step_store :=
  unfold mbind, M_bind, mret, M_ret, copy, deref, assign_all, assign_loc, update;
  repeat first
    [ rewrite lookup_insert_eq
    | rewrite insert_insert_eq
    | progress cbv beta iota zeta ].

Lemma apply_population_growth (data : loc) (intervention : Intervention)
    (h : gmap loc GeoDataFrame) (f : GeoDataFrame) :
  h !! data = Some f ->
  itype intervention = Some "population_growth"%string ->
  let k := 1 + default 0.1 (rate intervention) in
  apply_intervention data intervention h
  = (Ok (fresh (dom h)),
     <[fresh (dom h) :=
         with_rows f
           (map (fun c => set_tag "population_growth"
                            (scale_peak k (scale_demand k (scale_population k c))))
                (rows f))]> h).
Proof.
  intros Hf Hty k. unfold apply_intervention. decide_type Hty.
  step_store. rewrite Hf. step_store.
  cbn [rows with_rows has_estimated_cost_usd has_solar_capacity_mw].
  rewrite !map_map. reflexivity.
Qed.

Lemma apply_demand_increase (data : loc) (intervention : Intervention)
    (h : gmap loc GeoDataFrame) (f : GeoDataFrame) :
  h !! data = Some f ->
  itype intervention = Some "demand_increase"%string ->
  let k := 1 + default 0.2 (rate intervention) in
  apply_intervention data intervention h
  = (Ok (fresh (dom h)),
     <[fresh (dom h) :=
         with_rows f
           (map (fun c => set_tag "demand_increase"
                            (scale_peak k (scale_demand k c)))
                (rows f))]> h).
Proof.
  intros Hf Hty k. unfold apply_intervention. decide_type Hty.
  step_store. rewrite Hf. step_store.
  cbn [rows with_rows has_estimated_cost_usd has_solar_capacity_mw].
  rewrite !map_map. reflexivity.
Qed.

Lemma loc_update_compose (idx : list nat) (g1 g2 : Cluster -> Cluster)
    (rs : list Cluster) :
  loc_update idx g2 (loc_update idx g1 rs)
  = loc_update idx (fun c => g2 (g1 c)) rs.
Proof.
  unfold loc_update. apply list_eq. intros i.
  rewrite !list_lookup_imap. destruct (rs !! i) as [c|]; [|reflexivity].
  cbn. destruct (bool_decide (i ∈ idx)); reflexivity.
Qed.

Lemma loc_update_lookup (idx : list nat) (g : Cluster -> Cluster)
    (rs : list Cluster) (i : nat) :
  loc_update idx g rs !! i
  = (fun c => if bool_decide (i ∈ idx) then g c else c) <$> rs !! i.
Proof. unfold loc_update. apply list_lookup_imap. Qed.

Lemma apply_grid_extension (data : loc) (intervention : Intervention)
    (h : gmap loc GeoDataFrame) (f : GeoDataFrame) :
  h !! data = Some f ->
  itype intervention = Some "grid_extension"%string ->
  let count := default 10%Z (count intervention) in
  let target := default "top_priority"%string (target intervention) in
  let idx :=
    if String.eqb target "top_priority" then
      nlargest count (keyed priority_score (rows f))
    else if String.eqb target "nearest_grid" then
      nsmallest count (keyed dist_to_power_km (rows f))
    else head count (length (rows f)) in
  apply_intervention data intervention h
  = (Ok (fresh (dom h)),
     <[fresh (dom h) :=
         with_rows f
           (loc_update idx
              (fun c => set_tag "grid_extension"
                          (scale_demand 1.5
                             (set_solution "grid_extension"
                                (set_status "electrified" c))))
              (rows f))]> h).
Proof.
  intros Hf Hty count target idx. unfold apply_intervention. decide_type Hty.
  step_store. rewrite Hf. step_store.
  fold count. fold target. fold idx.
  cbn [rows with_rows has_estimated_cost_usd has_solar_capacity_mw].
  rewrite !loc_update_compose. reflexivity.
Qed.

Lemma apply_mini_grid_deployment (data : loc) (intervention : Intervention)
    (h : gmap loc GeoDataFrame) (f : GeoDataFrame) :
  h !! data = Some f ->
  itype intervention = Some "mini_grid_deployment"%string ->
  let count := default 20%Z (count intervention) in
  let candidates :=
    List.filter (fun ic => suitable (snd ic))
      (imap (fun i c => (i, c)) (rows f)) in
  let idx :=
    nlargest count
      (map (fun ic => (fst ic, priority_score (snd ic))) candidates) in
  apply_intervention data intervention h
  = (Ok (fresh (dom h)),
     <[fresh (dom h) :=
         with_rows f
           (loc_update idx
              (fun c => set_tag "mini_grid"
                          (scale_demand 1.3
                             (set_solution "mini_grid"
                                (set_status "partial" c))))
              (rows f))]> h).
Proof.
  intros Hf Hty count candidates idx. unfold apply_intervention.
  decide_type Hty. step_store. rewrite Hf. step_store.
  fold count. fold candidates. fold idx.
  cbn [rows with_rows has_estimated_cost_usd has_solar_capacity_mw].
  rewrite !loc_update_compose. reflexivity.
Qed.

Lemma apply_solar_capacity_addition (data : loc) (intervention : Intervention)
    (h : gmap loc GeoDataFrame) (f : GeoDataFrame) :
  h !! data = Some f ->
  itype intervention = Some "solar_capacity_addition"%string ->
  let capacity := default 50 (capacity_mw intervention) in
  let per_cluster :=
    capacity / inject_Z (Z.max (Z.of_nat (length (rows f))) 1) in
  apply_intervention data intervention h
  = (Ok (fresh (dom h)),
     <[fresh (dom h) :=
         mkFrame (has_estimated_cost_usd f) true
           (map (fun c =>
                   set_tag "solar_capacity"
                     (set_solar
                        (if has_solar_capacity_mw f
                         then (fun v => v + per_cluster) <$> solar_capacity_mw c
                         else Some (0 + per_cluster)) c))
                (rows f))]> h).
Proof.
  intros Hf Hty capacity per_cluster. unfold apply_intervention.
  decide_type Hty. step_store. rewrite Hf. step_store.
  fold capacity. fold per_cluster.
  cbn [rows with_rows has_estimated_cost_usd has_solar_capacity_mw].
  rewrite !map_map. reflexivity.
Qed.

Lemma apply_other (data : loc) (intervention : Intervention)
    (h : gmap loc GeoDataFrame) (f : GeoDataFrame) :
  h !! data = Some f ->
  is_type intervention "grid_extension" = false ->
  is_type intervention "mini_grid_deployment" = false ->
  is_type intervention "population_growth" = false ->
  is_type intervention "demand_increase" = false ->
  is_type intervention "solar_capacity_addition" = false ->
  apply_intervention data intervention h
  = (Ok (fresh (dom h)), <[fresh (dom h) := f]> h).
Proof.
  intros Hf H1 H2 H3 H4 H5. unfold apply_intervention.
  rewrite H1, H2, H3, H4, H5. step_store. rewrite Hf. reflexivity.
Qed.

(** *** What every intervention keeps *)

Lemma row_kept_refl (c : Cluster) : row_kept c c.
Proof. repeat split; auto. Qed.

Lemma row_kept_trans (c0 c1 c2 : Cluster) :
  row_kept c0 c1 -> row_kept c1 c2 -> row_kept c0 c2.
Proof.
  intros (Hp1 & Hd1 & Hc1 & Hn1) (Hp2 & Hd2 & Hc2 & Hn2).
  repeat split; try congruence. auto.
Qed.

Lemma same_shape_refl (f : GeoDataFrame) : same_shape f f.
Proof.
  split; [reflexivity|]. apply Forall2_same_length_lookup.
  split; [reflexivity|]. intros i c c' H1 H2.
  assert (c' = c) as -> by congruence. apply row_kept_refl.
Qed.

Lemma same_shape_trans (f0 f1 f2 : GeoDataFrame) :
  same_shape f0 f1 -> same_shape f1 f2 -> same_shape f0 f2.
Proof.
  intros [Hc1 H1] [Hc2 H2]. split; [congruence|].
  apply Forall2_same_length_lookup in H1. destruct H1 as [Hl1 H1].
  apply Forall2_same_length_lookup in H2. destruct H2 as [Hl2 H2].
  apply Forall2_same_length_lookup. split; [congruence|].
  intros i c0 c2 Hc0 Hc2'.
  destruct (lookup_lt_is_Some_2 (rows f1) i) as [c1 Hc1'].
  { rewrite <- Hl1. apply (lookup_lt_Some _ _ _ Hc0). }
  apply (row_kept_trans c0 c1 c2); eauto.
Qed.

Lemma rows_kept_loc_update (idx : list nat) (g : Cluster -> Cluster)
    (rs : list Cluster) :
  (forall c, row_kept c (g c)) -> Forall2 row_kept rs (loc_update idx g rs).
Proof.
  intros Hg. apply Forall2_same_length_lookup. split.
  - unfold loc_update. rewrite length_imap. reflexivity.
  - intros i c c' Hc Hc'. rewrite loc_update_lookup, Hc in Hc'.
    injection Hc' as <-.
    destruct (bool_decide (i ∈ idx)); [apply Hg|apply row_kept_refl].
Qed.

Lemma rows_kept_map (g : Cluster -> Cluster) (rs : list Cluster) :
  (forall c, row_kept c (g c)) -> Forall2 row_kept rs (map g rs).
Proof.
  intros Hg. induction rs as [|c rs IH]; cbn [map]; constructor; auto.
Qed.


Lemma costs_kept (rs0 rs : list Cluster) :
  Forall2 row_kept rs0 rs ->
  map estimated_cost_usd rs = map estimated_cost_usd rs0.
Proof.
  induction 1 as [|c0 c rs0 rs (_ & _ & Hc & _) _ IH]; [reflexivity|].
  cbn [map]. rewrite Hc, IH. reflexivity.
Qed.

(** Whatever its type, an intervention allocates one new frame holding a
    frame of the same shape as its input, and does not raise. *)
Lemma apply_intervention_shape (data : loc) (intervention : Intervention)
    (h : gmap loc GeoDataFrame) (f : GeoDataFrame) :
  h !! data = Some f ->
  exists f',
    apply_intervention data intervention h
    = (Ok (fresh (dom h)), <[fresh (dom h) := f']> h)
    /\ same_shape f f'.
Proof.
  intros Hf.
  destruct (is_type intervention "grid_extension") eqn:E1.
  { apply bool_decide_eq_true_1 in E1. eexists. split.
    - apply (apply_grid_extension data intervention h f Hf E1).
    - split; [reflexivity|]. apply rows_kept_loc_update.
      intros c. repeat split; try reflexivity. discriminate. }
  destruct (is_type intervention "mini_grid_deployment") eqn:E2.
  { apply bool_decide_eq_true_1 in E2. eexists. split.
    - apply (apply_mini_grid_deployment data intervention h f Hf E2).
    - split; [reflexivity|]. apply rows_kept_loc_update.
      intros c. repeat split; try reflexivity. discriminate. }
  destruct (is_type intervention "population_growth") eqn:E3.
  { apply bool_decide_eq_true_1 in E3. eexists. split.
    - apply (apply_population_growth data intervention h f Hf E3).
    - split; [reflexivity|]. apply rows_kept_map.
      intros c. repeat split; try reflexivity. auto. }
  destruct (is_type intervention "demand_increase") eqn:E4.
  { apply bool_decide_eq_true_1 in E4. eexists. split.
    - apply (apply_demand_increase data intervention h f Hf E4).
    - split; [reflexivity|]. apply rows_kept_map.
      intros c. repeat split; try reflexivity. auto. }
  destruct (is_type intervention "solar_capacity_addition") eqn:E5.
  { apply bool_decide_eq_true_1 in E5. eexists. split.
    - apply (apply_solar_capacity_addition data intervention h f Hf E5).
    - split; [reflexivity|]. apply rows_kept_map.
      intros c. repeat split; try reflexivity. auto. }
  exists f. split; [apply apply_other; assumption|apply same_shape_refl].
Qed.



(** *** The whole run *)

Lemma apply_all_shape (its : list Intervention) (l : loc)
    (h : gmap loc GeoDataFrame) (f : GeoDataFrame) :
  h !! l = Some f ->
  exists l' h' f',
    apply_all l its h = (Ok l', h')
    /\ h' !! l' = Some f'
    /\ same_shape f f'
    /\ h ⊆ h'.
Proof.
  revert l h f. induction its as [|it its IH]; intros l h f Hf.
  - exists l, h, f. repeat split; [exact Hf|apply same_shape_refl|].
    reflexivity.
  - destruct (apply_intervention_shape l it h f Hf) as (f1 & Hrun & Hs1).
    destruct (IH (fresh (dom h)) (<[fresh (dom h) := f1]> h) f1
                (lookup_insert_eq _ _ _)) as (l' & h' & f' & Hall & Hl' & Hs2 & Hsub).
    exists l', h', f'. split.
    + cbn [apply_all]. unfold mbind, M_bind. rewrite Hrun. exact Hall.
    + split; [exact Hl'|]. split; [apply (same_shape_trans f f1 f'); assumption|].
      transitivity (<[fresh (dom h) := f1]> h); [|exact Hsub].
      apply insert_subseteq. apply fresh_unused.
Qed.

Lemma calculate_impacts_eval (baseline scenario : loc)
    (h : gmap loc GeoDataFrame) (fb fs : GeoDataFrame) (i : Impacts) :
  h !! baseline = Some fb ->
  h !! scenario = Some fs ->
  impacts_of fb fs = Ok i ->
  calculate_impacts baseline scenario h = (Ok i, h).
Proof.
  intros Hb Hs Hi. unfold calculate_impacts, mbind, M_bind, deref.
  rewrite Hb, Hs, Hi. reflexivity.
Qed.

Lemma impacts_of_cost (fb fs : GeoDataFrame) (i : Impacts) :
  impacts_of fb fs = Ok i ->
  cost_usd i
  = if has_estimated_cost_usd fs
    then Finite (sum_skipna (map estimated_cost_usd (rows fs)))
    else NaN.
Proof.
  unfold impacts_of. destruct (length (rows fs) =? 0)%nat; [discriminate|].
  intros H. injection H as <-. reflexivity.
Qed.

Lemma same_shape_nonempty (f f' : GeoDataFrame) :
  same_shape f f' -> rows f <> [] -> rows f' <> [].
Proof.
  intros [_ H] Hne E. apply Forall2_length in H. rewrite E in H.
  destruct (rows f); [congruence|discriminate].
Qed.

Lemma run_scenarios_nonempty (baseline : loc) (defs : list ScenarioDefinition)
    (acc : list Impacts) (h : gmap loc GeoDataFrame) (f : GeoDataFrame) :
  h !! baseline = Some f ->
  rows f <> [] ->
  exists new h',
    run_scenarios baseline defs acc h = (Ok (acc ++ new), h')
    /\ map scenario_name new = map name defs
    /\ map scenario_description new = map description defs
    /\ Forall (fun i =>
                 cost_usd i
                 = if has_estimated_cost_usd f
                   then Finite (sum_skipna (map estimated_cost_usd (rows f)))
                   else NaN) new.
Proof.
  intros Hf Hne. revert acc h Hf.
  induction defs as [|d defs IH]; intros acc h Hf.
  - exists [], h. rewrite app_nil_r. repeat split. constructor.
  - cbn [run_scenarios]. unfold mbind at 1. unfold M_bind at 1.
    unfold copy at 1. rewrite Hf.
    set (l := fresh (dom h)). set (h1 := <[l := f]> h).
    assert (Hsub1 : h ⊆ h1) by (apply insert_subseteq, fresh_unused).
    destruct (apply_all_shape (interventions d) l h1 f (lookup_insert_eq _ _ _))
      as (l' & h2 & f' & Hall & Hl' & Hshape & Hsub2).
    unfold mbind at 1. unfold M_bind at 1. rewrite Hall.
    assert (Hb2 : h2 !! baseline = Some f).
    { apply (lookup_weaken h1 h2); [|exact Hsub2].
      apply (lookup_weaken h h1); assumption. }
    destruct (impacts_of_nonempty f f' (same_shape_nonempty f f' Hshape Hne))
      as [i Hi].
    unfold mbind at 1. unfold M_bind at 1.
    rewrite (calculate_impacts_eval baseline l' h2 f f' i Hb2 Hl' Hi).
    destruct (IH (acc ++ [describe d i]) h2 Hb2)
      as (new & h' & Hrun & Hnames & Hdescr & Hcost).
    exists (describe d i :: new), h'. split.
    + rewrite Hrun. rewrite <- app_assoc. reflexivity.
    + cbn [map describe scenario_name scenario_description].
      split; [f_equal; exact Hnames|]. split; [f_equal; exact Hdescr|].
      constructor; [|exact Hcost].
      cbn [describe cost_usd]. rewrite (impacts_of_cost f f' i Hi).
      destruct Hshape as [-> Hrows]. rewrite (costs_kept _ _ Hrows).
      reflexivity.
Qed.



(** X21.  No intervention changes [estimated_cost_usd], so the [cost_usd]
    of every scenario is the same: the baseline's total estimated cost
    (or NaN when the baseline has no cost column). *)
Theorem run_cost_is_baseline_cost (baseline : loc)
    (defs : list ScenarioDefinition) (h h' : gmap loc GeoDataFrame)
    (f : GeoDataFrame) (results : list Impacts) :
  h !! baseline = Some f ->
  run baseline defs h = (Ok results, h') ->
  Forall (fun i =>
            cost_usd i
            = if has_estimated_cost_usd f
              then Finite (sum_skipna (map estimated_cost_usd (rows f)))
              else NaN) results.
Proof.
  intros Hf Hrun. destruct (rows f) as [|c rs] eqn:Hrows.
  - (* an empty baseline: [run] returns only for no definitions *)
    destruct defs as [|d defs].
    + injection Hrun as <- _. constructor.
    + exfalso. unfold run in Hrun. cbn [run_scenarios] in Hrun.
      unfold mbind at 1 in Hrun. unfold M_bind at 1 in Hrun.
      unfold copy at 1 in Hrun. rewrite Hf in Hrun.
      destruct (apply_all_shape (interventions d) (fresh (dom h))
                  (<[fresh (dom h) := f]> h) f (lookup_insert_eq _ _ _))
        as (l' & h2 & f' & Hall & Hl' & Hshape & Hsub2).
      unfold mbind at 1 in Hrun. unfold M_bind at 1 in Hrun.
      rewrite Hall in Hrun.
      assert (Hb2 : h2 !! baseline = Some f).
      { apply (lookup_weaken (<[fresh (dom h) := f]> h) h2); [|exact Hsub2].
        apply (lookup_weaken h); [exact Hf|].
        apply insert_subseteq, fresh_unused. }
      assert (Hempty : rows f' = []).
      { destruct Hshape as [_ H]. apply Forall2_length in H.
        rewrite Hrows in H. destruct (rows f'); [reflexivity|discriminate]. }
      unfold mbind at 1 in Hrun. unfold M_bind at 1 in Hrun.
      unfold calculate_impacts, mbind, M_bind, deref in Hrun.
      rewrite Hb2, Hl', (impacts_of_empty f f' Hempty) in Hrun.
      discriminate.
  - destruct (run_scenarios_nonempty baseline defs [] h f Hf
                ltac:(rewrite Hrows; discriminate))
      as (new & h'' & Hrun' & _ & _ & Hcost).
    unfold run in Hrun. rewrite Hrun' in Hrun. injection Hrun as <- _.
    rewrite Hrows in Hcost. exact Hcost.
Qed.

Lemma run_cost_is_baseline_cost_witness :
  exists results h',
    run 1%positive [growth_scenario; idle_scenario] (loaded three_clusters)
    = (Ok results, h')
    /\ Forall (fun i => cost_usd i = Finite (sum_skipna [Some 1000; Some 2000; Some 3000]))
         results.
Proof.
  destruct (run 1%positive [growth_scenario; idle_scenario]
              (loaded three_clusters)) as [[results|e] h'] eqn:Hrun;
    [|vm_compute in Hrun; discriminate].
  exists results, h'. split; [reflexivity|].
  apply (run_cost_is_baseline_cost 1%positive [growth_scenario; idle_scenario]
           (loaded three_clusters) h' three_clusters results eq_refl Hrun).
Defined.

(** *** Top-N selection *)

Lemma insert_desc_perm (x : nat * Q) (l : list (nat * Q)) :
  insert_desc x l ≡ₚ x :: l.
Proof.
  induction l as [|y l IH]; [reflexivity|]. cbn [insert_desc].
  destruct (Qle_bool (snd y) (snd x)); [reflexivity|].
  rewrite IH. apply perm_swap.
Qed.

Lemma sort_desc_perm (l : list (nat * Q)) : foldr insert_desc [] l ≡ₚ l.
Proof.
  induction l as [|x l IH]; [reflexivity|]. cbn [foldr].
  rewrite insert_desc_perm, IH. reflexivity.
Qed.

Lemma insert_desc_sorted (x : nat * Q) (l : list (nat * Q)) :
  StronglySorted ranks_before l ->
  Forall (fun y => (fst x < fst y)%nat) l ->
  StronglySorted ranks_before (insert_desc x l).
Proof.
  induction 1 as [|y l Hsorted IH Hy]; intros Hpos.
  - cbn. repeat constructor.
  - cbn [insert_desc]. inversion Hpos as [|? ? Hxy Hxl]; subst.
    destruct (Qle_bool (snd y) (snd x)) eqn:E.
    + apply Qle_bool_iff in E. apply SSorted_cons.
      * apply SSorted_cons; assumption.
      * assert (Hbefore : ranks_before x y).
        { unfold ranks_before. destruct (Qlt_le_dec (snd y) (snd x)) as [H|H].
          - left. exact H.
          - right. split; [lra|exact Hxy]. }
        constructor; [exact Hbefore|].
        apply Forall_forall. intros z Hz.
        pose proof (proj1 (Forall_forall _ _) Hy z Hz) as Hyz.
        pose proof (proj1 (Forall_forall _ _) Hxl z Hz) as Hxz.
        unfold ranks_before in *.
        destruct (Qlt_le_dec (snd z) (snd x)) as [H|H]; [left; exact H|].
        right. split; [|exact Hxz].
        destruct Hyz as [Hlt|[Heq _]]; lra.
    + apply Qge_bool_false in E. apply SSorted_cons; [apply IH; exact Hxl|].
      apply Forall_forall. intros z Hz.
      rewrite insert_desc_perm in Hz. apply elem_of_cons in Hz.
      destruct Hz as [->|Hz].
      * left. exact E.
      * apply (proj1 (Forall_forall _ _) Hy z Hz).
Qed.

Lemma sort_desc_sorted (l : list (nat * Q)) :
  labels_increase l -> StronglySorted ranks_before (foldr insert_desc [] l).
Proof.
  induction 1 as [|x l Hsorted IH Hx]; [constructor|].
  cbn [foldr]. apply insert_desc_sorted; [exact IH|].
  apply Forall_forall. intros y Hy. rewrite sort_desc_perm in Hy.
  apply (proj1 (Forall_forall _ _) Hx y Hy).
Qed.

Lemma labels_increase_NoDup (l : list (nat * Q)) :
  labels_increase l -> NoDup (fst <$> l).
Proof.
  induction 1 as [|x l Hsorted IH Hx]; [constructor|].
  cbn [fmap list_fmap]. constructor; [|exact IH].
  intros Hin. apply list_elem_of_fmap in Hin. destruct Hin as (y & Hfst & Hy).
  pose proof (proj1 (Forall_forall _ _) Hx y Hy) as Hlt.
  cbv beta in Hlt. rewrite Hfst in Hlt. lia.
Qed.

Lemma nlargest_fmap (n : Z) (kl : list (nat * Q)) :
  nlargest n kl = fst <$> take (Z.to_nat n) (foldr insert_desc [] kl).
Proof. reflexivity. Qed.

Lemma nlargest_elem (n : Z) (kl : list (nat * Q)) (i : nat) :
  i ∈ nlargest n kl -> exists q, (i, q) ∈ kl.
Proof.
  rewrite nlargest_fmap. intros Hi. apply list_elem_of_fmap in Hi.
  destruct Hi as ([j q] & -> & Hin). exists q.
  apply elem_of_take in Hin. destruct Hin as (k & Hk & _).
  rewrite <- (sort_desc_perm kl). apply list_elem_of_lookup. eauto.
Qed.

(** The selection as a whole: [n] labels (or all of them), without
    repetition, and every pair left out ranks after every pair taken. *)
Lemma nlargest_spec (n : Z) (kl : list (nat * Q)) :
  labels_increase kl ->
  NoDup (nlargest n kl)
  /\ length (nlargest n kl) = Nat.min (Z.to_nat n) (length kl)
  /\ (forall a b, a ∈ kl -> b ∈ kl ->
        fst a ∈ nlargest n kl -> fst b ∉ nlargest n kl -> ranks_before a b).
Proof.
  intros Hinc. rewrite nlargest_fmap.
  set (sorted := foldr insert_desc [] kl).
  assert (Hperm : sorted ≡ₚ kl) by apply sort_desc_perm.
  assert (Hnd : NoDup (fst <$> sorted)).
  { rewrite Hperm. apply labels_increase_NoDup, Hinc. }
  assert (Hsorted : StronglySorted ranks_before sorted)
    by (apply sort_desc_sorted, Hinc).
  split; [|split].
  - apply (sublist_NoDup _ (fst <$> sorted)); [exact Hnd|].
    apply fmap_sublist. apply sublist_take.
  - rewrite length_fmap, length_take. rewrite Hperm. reflexivity.
  - intros a b Ha Hb Hta Htb.
    rewrite <- (take_drop (Z.to_nat n) sorted) in Hsorted.
    assert (Ha' : a ∈ take (Z.to_nat n) sorted).
    { apply list_elem_of_fmap in Hta. destruct Hta as (a' & Hfst & Ha').
      assert (a' = a) as <-; [|exact Ha'].
      assert (Ha'' : a' ∈ sorted).
      { rewrite <- (take_drop (Z.to_nat n) sorted). apply elem_of_app.
        left. exact Ha'. }
      rewrite <- Hperm in Ha.
      apply list_elem_of_lookup in Ha. destruct Ha as [ia Hia].
      apply list_elem_of_lookup in Ha''. destruct Ha'' as [ia' Hia'].
      assert (ia = ia') as <-.
      { apply (NoDup_lookup (fst <$> sorted) ia ia' (fst a)); [exact Hnd| |].
        - rewrite list_lookup_fmap, Hia. reflexivity.
        - rewrite list_lookup_fmap, Hia', Hfst. reflexivity. }
      congruence. }
    assert (Hb' : b ∈ drop (Z.to_nat n) sorted).
    { rewrite <- Hperm in Hb.
      rewrite <- (take_drop (Z.to_nat n) sorted) in Hb.
      apply elem_of_app in Hb. destruct Hb as [Hb|Hb]; [|exact Hb].
      exfalso. apply Htb. apply list_elem_of_fmap. exists b. split;
        [reflexivity|exact Hb]. }
    apply (StronglySorted_app_1_elem_of _ _ _ a b Hsorted Ha' Hb').
Qed.

Lemma keyed_offset (column : Cluster -> Q) (rs : list Cluster) (k : nat) :
  StronglySorted (fun a b : nat * Q => (fst a < fst b)%nat)
    (imap (fun i c => ((k + i)%nat, column c)) rs)
  /\ Forall (fun a : nat * Q => (k <= fst a)%nat)
       (imap (fun i c => ((k + i)%nat, column c)) rs).
Proof.
  revert k. induction rs as [|c rs IH]; intros k; [split; constructor|].
  rewrite imap_cons.
  assert (E : imap ((fun i c => ((k + i)%nat, column c)) ∘ S) rs
              = imap (fun i c => ((S k + i)%nat, column c)) rs).
  { apply imap_ext. intros i x _. cbn. f_equal. lia. }
  rewrite E. destruct (IH (S k)) as [Hs Hf]. split.
  - apply SSorted_cons; [exact Hs|].
    apply Forall_forall. intros a Ha.
    pose proof (proj1 (Forall_forall _ _) Hf a Ha) as Hle.
    cbv beta in Hle. cbn. lia.
  - constructor; [cbn; lia|].
    apply Forall_forall. intros a Ha.
    pose proof (proj1 (Forall_forall _ _) Hf a Ha) as Hle.
    cbv beta in Hle. lia.
Qed.

Lemma keyed_labels_increase (column : Cluster -> Q) (rs : list Cluster) :
  labels_increase (keyed column rs).
Proof. apply (proj1 (keyed_offset column rs 0)). Qed.

Lemma keyed_elem (column : Cluster -> Q) (rs : list Cluster) (i : nat) (q : Q) :
  (i, q) ∈ keyed column rs <-> exists c, rs !! i = Some c /\ q = column c.
Proof.
  unfold keyed. rewrite elem_of_lookup_imap. split.
  - intros (j & c & E & Hc). injection E as -> ->. eauto.
  - intros (c & Hc & ->). eauto.
Qed.

(** X22.  [nlargest] on the rows of a frame picks [min(n, len)] distinct
    rows (none for [n <= 0]); every row it picks has a key larger than,
    or equal to with an earlier position than, every row it leaves out:
    ties go to the earlier row. *)
Theorem nlargest_top (n : Z) (column : Cluster -> Q) (rs : list Cluster) :
  let idx := nlargest n (keyed column rs) in
  NoDup idx
  /\ length idx = Nat.min (Z.to_nat n) (length rs)
  /\ (forall i, i ∈ idx -> (i < length rs)%nat)
  /\ (forall i j ci cj,
        i ∈ idx -> j ∉ idx ->
        rs !! i = Some ci -> rs !! j = Some cj ->
        column cj < column ci \/ (column cj == column ci /\ (i < j)%nat)).
Proof.
  intros idx. subst idx.
  destruct (nlargest_spec n (keyed column rs) (keyed_labels_increase column rs))
    as (Hnd & Hlen & Hrank).
  split; [exact Hnd|]. split.
  - rewrite Hlen. unfold keyed. rewrite length_imap. reflexivity.
  - split.
    + intros i Hi. apply nlargest_elem in Hi. destruct Hi as [q Hq].
      apply keyed_elem in Hq. destruct Hq as (c & Hc & _).
      apply (lookup_lt_Some _ _ _ Hc).
    + intros i j ci cj Hi Hj Hci Hcj.
      apply (Hrank (i, column ci) (j, column cj)); try assumption;
        apply keyed_elem; eauto.
Qed.





(** *** Totals after an intervention *)




Lemma sum_skipna_const {A : Type} (k : Q) (l : list A) :
  sum_skipna (map (fun _ => Some k) l) == inject_Z (Z.of_nat (length l)) * k.
Proof.
  unfold sum_skipna. induction l as [|x l IH].
  - cbn. ring.
  - cbn [map omap list_omap id]. change (omap id (map (fun _ : A => Some k) l))
      with (omap id (map (fun _ : A => Some k) l)).
    rewrite Qsum_cons. cbn [map omap] in IH. rewrite IH.
    cbn [length]. rewrite Nat2Z.inj_succ, <- Z.add_1_r, inject_Z_plus. ring.
Qed.

(** X26.  On a frame with at least one record and no solar column, a
    solar-capacity addition creates the column with the same share in
    every record, and the shares add up to the capacity given. *)
Theorem solar_capacity_distributed (data : loc) (intervention : Intervention)
    (h : gmap loc GeoDataFrame) (f : GeoDataFrame) :
  h !! data = Some f ->
  itype intervention = Some "solar_capacity_addition"%string ->
  has_solar_capacity_mw f = false ->
  rows f <> [] ->
  let capacity := default 50 (capacity_mw intervention) in
  exists result h' f',
    apply_intervention data intervention h = (Ok result, h')
    /\ h' !! result = Some f'
    /\ has_solar_capacity_mw f' = true
    /\ length (rows f') = length (rows f)
    /\ Forall (fun c =>
                 exists v, solar_capacity_mw c = Some v
                           /\ v == capacity / inject_Z (Z.of_nat (length (rows f))))
         (rows f')
    /\ sum_skipna (map solar_capacity_mw (rows f')) == capacity.
Proof.
  intros Hf Hty Hcol Hne capacity.
  pose proof (apply_solar_capacity_addition data intervention h f Hf Hty) as Hrun.
  cbv zeta in Hrun. rewrite Hcol in Hrun. fold capacity in Hrun.
  assert (Hn : (1 <= Z.of_nat (length (rows f)))%Z).
  { destruct (rows f); [congruence|cbn [length]; lia]. }
  assert (Hmax : Z.max (Z.of_nat (length (rows f))) 1 = Z.of_nat (length (rows f)))
    by lia.
  rewrite Hmax in Hrun.
  set (n := inject_Z (Z.of_nat (length (rows f)))) in *.
  assert (Hn0 : ~ n == 0).
  { subst n. intros E. unfold Qeq in E. cbn in E. lia. }
  do 3 eexists. split; [exact Hrun|]. split; [apply lookup_insert_eq|].
  cbn [rows has_solar_capacity_mw].
  split; [reflexivity|]. split; [apply length_map|]. split.
  - apply List.Forall_forall. intros c Hc. apply in_map_iff in Hc.
    destruct Hc as (c0 & <- & _). cbn [set_tag set_solar solar_capacity_mw].
    eexists. split; [reflexivity|]. ring.
  - rewrite map_map. cbn [set_tag set_solar solar_capacity_mw].
    rewrite sum_skipna_const. fold n. field. exact Hn0.
Qed.

Lemma solar_capacity_distributed_witness :
  exists result h' f',
    apply_intervention 1%positive add_solar (loaded three_clusters)
    = (Ok result, h')
    /\ h' !! result = Some f'
    /\ sum_skipna (map solar_capacity_mw (rows f')) == 30.
Proof.
  destruct (solar_capacity_distributed 1%positive add_solar
              (loaded three_clusters) three_clusters eq_refl eq_refl eq_refl
              ltac:(discriminate))
    as (result & h' & f' & Hrun & Hres & _ & _ & _ & Hsum).
  exists result, h', f'. repeat split; assumption.
Defined.

(** *** The impact record *)

Lemma filter_split (l : list Cluster) :
  (length (List.filter (fun c => negb (is_none c)) l)
   + length (List.filter is_none l) = length l)%nat.
Proof.
  induction l as [|c l IH]; [reflexivity|]. cbn [List.filter].
  destruct (is_none c); cbn [negb length]; lia.
Qed.

(** X27.  Whenever the impact record is produced, its electrification
    rate lies between 0 and 1: it is 1 minus the share of status-"none"
    records of the scenario frame. *)
Theorem electrification_rate_range (baseline scenario : GeoDataFrame)
    (i : Impacts) :
  impacts_of baseline scenario = Ok i ->
  0 <= electrification_rate i
  /\ electrification_rate i <= 1
  /\ electrification_rate i
     == 1 - inject_Z (Z.of_nat (length (unelectrified scenario)))
            / inject_Z (Z.of_nat (length (rows scenario))).
Proof.
  unfold impacts_of.
  destruct (length (rows scenario) =? 0)%nat eqn:E; [discriminate|].
  intros H. injection H as <-. cbn [electrification_rate].
  apply Nat.eqb_neq in E.
  pose proof (filter_split (rows scenario)) as Hsplit.
  unfold unelectrified.
  set (a := length (List.filter (fun c => negb (is_none c)) (rows scenario))) in *.
  set (b := length (List.filter is_none (rows scenario))) in *.
  set (n := length (rows scenario)) in *.
  assert (Hn : 0 < inject_Z (Z.of_nat n)).
  { change 0 with (inject_Z 0). rewrite <- Zlt_Qlt. lia. }
  assert (Ha : 0 <= inject_Z (Z.of_nat a)).
  { change 0 with (inject_Z 0). rewrite <- Zle_Qle. lia. }
  assert (Hb : 0 <= inject_Z (Z.of_nat b)).
  { change 0 with (inject_Z 0). rewrite <- Zle_Qle. lia. }
  assert (Hsum : inject_Z (Z.of_nat a) + inject_Z (Z.of_nat b)
                 == inject_Z (Z.of_nat n)).
  { rewrite <- inject_Z_plus, <- Nat2Z.inj_add, Hsplit. reflexivity. }
  set (qa := inject_Z (Z.of_nat a)) in *.
  set (qb := inject_Z (Z.of_nat b)) in *.
  set (qn := inject_Z (Z.of_nat n)) in *.
  split; [apply Qle_shift_div_l; lra|].
  split; [apply Qle_shift_div_r; lra|].
  field_simplify_eq; lra.
Qed.

Lemma electrification_rate_range_witness :
  exists i,
    impacts_of three_clusters three_clusters = Ok i
    /\ 0 <= electrification_rate i /\ electrification_rate i <= 1.
Proof.
  destruct (impacts_of three_clusters three_clusters) as [i|] eqn:Hi;
    [|vm_compute in Hi; discriminate].
  exists i. split; [reflexivity|].
  destruct (electrification_rate_range three_clusters three_clusters i Hi)
    as (H0 & H1 & _).
  split; assumption.
Defined.

(** X28.  A scenario without interventions reports no impact: on a
    baseline with at least one record, [people_electrified],
    [settlements_connected] and [demand_increase_mwh] are all 0. *)
Theorem scenario_without_interventions (baseline : loc)
    (definition : ScenarioDefinition) (h : gmap loc GeoDataFrame)
    (f : GeoDataFrame) :
  h !! baseline = Some f ->
  rows f <> [] ->
  interventions definition = [] ->
  exists i h',
    run baseline [definition] h = (Ok [i], h')
    /\ scenario_name i = name definition
    /\ people_electrified i == 0
    /\ settlements_connected i == 0
    /\ demand_increase_mwh i == 0.
Proof.
  intros Hf Hne Hnone.
  destruct (impacts_of_nonempty f f Hne) as [i Hi].
  assert (Hfresh : fresh (dom h) <> baseline).
  { intros E. pose proof (fresh_unused h) as Hn. rewrite E in Hn. congruence. }
  exists (describe definition i), (<[fresh (dom h) := f]> h). split.
  - unfold run. cbn [run_scenarios]. rewrite Hnone. cbn [apply_all].
    unfold mbind at 1. unfold M_bind at 1. unfold copy. rewrite Hf.
    unfold mbind at 1. unfold M_bind at 1. unfold mret at 1. unfold M_ret at 1.
    unfold mbind at 1. unfold M_bind at 1.
    rewrite (calculate_impacts_eval baseline (fresh (dom h)) _ f f i);
      [reflexivity| |apply lookup_insert_eq|exact Hi].
    rewrite lookup_insert_ne by exact Hfresh. exact Hf.
  - cbn [describe scenario_name people_electrified settlements_connected
           demand_increase_mwh].
    split; [reflexivity|].
    unfold impacts_of in Hi.
    destruct (length (rows f) =? 0)%nat; [discriminate|].
    injection Hi as <-.
    cbn [people_electrified settlements_connected demand_increase_mwh].
    split; [|split].
    + destruct (py_max_floor
                  (Qsum (map estimated_population (unelectrified f))
                   - Qsum (map estimated_population (unelectrified f))))
        as [_ ->].
      apply Q.max_r. lra.
    + rewrite Z.sub_diag. reflexivity.
    + ring.
Qed.

Lemma scenario_without_interventions_witness :
  exists i h',
    run 1%positive [idle_scenario] (loaded three_clusters) = (Ok [i], h')
    /\ demand_increase_mwh i == 0.
Proof.
  destruct (scenario_without_interventions 1%positive idle_scenario
              (loaded three_clusters) three_clusters eq_refl
              ltac:(discriminate) eq_refl)
    as (i & h' & Hrun & _ & _ & _ & Hd).
  exists i, h'. split; assumption.
Defined.



End ScenarioFurther.

(** ** The recalculation endpoint *)

Section BackendFurther.

Import Backend.

(** X30.  The endpoint rejects a request exactly when its weights are a
    non-empty dictionary, dry run or not; an absent or empty weights
    dictionary is let through.  The recomputation job is scheduled
    exactly when the request is let through and is not a dry run. *)
Theorem recalculate_clusters_table (payload : RecalculateRequest) :
  let rejected :=
    exists d, weights payload = Some d /\ d <> ∅ in
  ((exists detail, fst (recalculate_clusters payload) = HTTPException 400 detail)
   <-> rejected)
  /\ (snd (recalculate_clusters payload) = true
      <-> ~ rejected /\ dry_run payload = false)
  /\ (~ rejected -> dry_run payload = true ->
      exists message, recalculate_clusters payload = (Reply "ok" message, false)).
Proof.
  intros rejected. unfold recalculate_clusters.
  assert (Ht : truthy (weights payload) = true <-> rejected).
  { subst rejected. unfold truthy. destruct (weights payload) as [d|].
    - rewrite negb_true_iff, bool_decide_eq_false. split.
      + intros Hd. exists d. split; [reflexivity|exact Hd].
      + intros (d' & E & Hd). injection E as ->. exact Hd.
    - split; [discriminate|]. intros (d & E & _). discriminate. }
  clearbody rejected.
  destruct (truthy (weights payload)) eqn:E.
  - assert rejected by (apply Ht; reflexivity).
    split; [split; [intros _; assumption|intros _; eexists; reflexivity]|].
    split; [split; [discriminate|tauto]|tauto].
  - assert (~ rejected) by (intros Hr; apply Ht in Hr; discriminate).
    destruct (dry_run payload) eqn:Ed; cbn [fst snd].
    + split; [split; [intros [? ?]; discriminate|tauto]|].
      split; [split; [discriminate|intros [_ ?]; discriminate]|].
      intros _ _. eexists. reflexivity.
    + split; [split; [intros [? ?]; discriminate|tauto]|].
      split; [split; [tauto|reflexivity]|]. intros _ ?. discriminate.
Qed.

End BackendFurther.
